(** * Restaurant API: [main.py]

    A shallow embedding of the restaurant directory service: the
    geospatial statistics endpoint, the routing table that decides which
    handler serves a request, the CRUD handlers over the [restaurants]
    table and the import of the CSV file at startup.

    Numeric model.  Python [int] values are [Z].  Python [float] values are
    the elements of a type [float] that comes with the floating-point
    operations the program uses ([FloatArith]): the definitions are written
    once, over any such arithmetic, and round wherever the program rounds.
    Two arithmetics are given.  [ieee libm] is IEEE 754 binary64, on the
    primitive floats of Rocq, over a C library [libm] that provides [sin],
    [cos] and [atan2]; what is evaluated in it is stated for every C
    library that takes the values of glibc at the arguments reached.
    [exact_arith] is the arithmetic of the real numbers, without rounding;
    it satisfies the laws under which some theorems are stated. *)

From Stdlib Require Import PrimFloat FloatOps FloatAxioms SpecFloat.
From Stdlib Require Import String Reals Lra Lia ZArith List Permutation Bool.
From Stdlib Require Import Classical_Prop FunctionalExtensionality.
Import ListNotations.

Open Scope R_scope.

(** ** Exceptions and results

    A handler either returns a value or raises.  [HTTPException] is the
    FastAPI exception carrying a status code and a detail message;
    [StatisticsError] is the exception of the [statistics] module and
    [ValueError] the one the [math] module raises outside the domain of a
    function.  An exception other than [HTTPException] leaving a handler is
    answered by the framework with status 500. *)

Inductive exception : Type :=
| HTTPException (status_code : Z) (detail : string)
| StatisticsError
| ValueError.

Inductive result (A : Type) : Type :=
| Return (a : A)
| Raise (e : exception).

Arguments Return {A} a.
Arguments Raise {A} e.

Definition status_of {A : Type} (r : result A) : Z :=
  match r with
  | Return _ => 200
  | Raise (HTTPException status_code _) => status_code
  | Raise StatisticsError => 500
  | Raise ValueError => 500
  end%Z.

(** Sequencing: the first exception raised is the one that propagates. *)
Definition bind {A B : Type} (r : result A) (k : A -> result B) : result B :=
  match r with
  | Return a => k a
  | Raise e => Raise e
  end.

Notation "x <- e ;; k" := (bind e (fun x => k))
  (at level 61, e at next level, right associativity).

(** ** Floating-point arithmetic

    The operations of Python on [float] values that the program uses.
    [of_int] is the conversion of an [int] operand ([6371 * c], [d_lat / 2],
    [1 - a]); the comparisons between a [float] and an [int] are exact;
    [c_sqrt], [c_sin], [c_cos] and [c_atan2] are the functions of the C
    library that the [math] module wraps; [deg_to_rad] is the constant
    [pi / 180] of [math.radians]; [int_truediv] is the division [/] of two
    [int] values; [float_sqrt_of_frac n d] is the [float] that the
    [statistics] module returns for the square root of the fraction
    [n / d].  [fneg] is the change of sign. *)
Class FloatArith : Type := {
  float : Type;
  of_int : Z -> float;
  fadd : float -> float -> float;
  fsub : float -> float -> float;
  fmul : float -> float -> float;
  fdiv : float -> float -> float;
  fneg : float -> float;
  float_le_int : float -> Z -> bool;
  int_le_float : Z -> float -> bool;
  float_lt_int : float -> Z -> bool;
  is_inf : float -> bool;
  deg_to_rad : float;
  c_sqrt : float -> float;
  c_sin : float -> float;
  c_cos : float -> float;
  c_atan2 : float -> float -> float;
  int_truediv : Z -> Z -> float;
  float_sqrt_of_frac : Z -> Z -> float
}.

(** ** The [math] module *)

Module math.

(** [math.radians(x)]: [x * (pi / 180)]. *)
Definition radians {FA : FloatArith} (x : float) : float :=
  fmul x deg_to_rad.

(** [math.sqrt(x)]: [ValueError] on a negative argument. *)
Definition sqrt {FA : FloatArith} (x : float) : result float :=
  if float_lt_int x 0 then Raise ValueError else Return (c_sqrt x).

(** [math.sin(x)] and [math.cos(x)]: [ValueError] on an infinite
    argument. *)
Definition sin {FA : FloatArith} (x : float) : result float :=
  if is_inf x then Raise ValueError else Return (c_sin x).

Definition cos {FA : FloatArith} (x : float) : result float :=
  if is_inf x then Raise ValueError else Return (c_cos x).

(** [math.atan2(y, x)]: defined on all arguments. *)
Definition atan2 {FA : FloatArith} (y x : float) : float := c_atan2 y x.

End math.

(** ** The [statistics] module *)

(** [sum(iterable)] over integers: left to right, starting from 0. *)
Definition py_sum (xs : list Z) : Z := fold_left Z.add xs 0%Z.

Module statistics.

(** The module (Python 3.11 and later) computes the sum of the squared
    deviations from the mean exactly, as a fraction.  For [n] integers of
    sum [s] and sum of squares [q], the sample variance
    [sum((x - s/n)^2) / (n - 1)] is the fraction
    [(n * q - s * s) / (n * (n - 1))]. *)
Definition variance_num (data : list Z) : Z :=
  let n := Z.of_nat (length data) in
  let s := py_sum data in
  let q := py_sum (map (fun x => x * x)%Z data) in
  (n * q - s * s)%Z.

Definition variance_den (data : list Z) : Z :=
  let n := Z.of_nat (length data) in
  (n * (n - 1))%Z.

(** [statistics.stdev(data)]: the sample standard deviation, with
    denominator [n - 1]; fewer than two data points raise
    [StatisticsError]. *)
Definition stdev {FA : FloatArith} (data : list Z) : result float :=
  let n := length data in
  if (n <? 2)%nat then Raise StatisticsError
  else Return (float_sqrt_of_frac (variance_num data) (variance_den data)).

End statistics.

Section Model.

Context {FA : FloatArith}.

(** ** [haversine_distance] (main.py, lines 209-219) *)

Definition haversine_distance (lat1 lon1 lat2 lon2 : float) : result float :=
  let R := of_int 6371 in
  let d_lat := math.radians (fsub lat2 lat1) in
  let d_lon := math.radians (fsub lon2 lon1) in
  let lat1 := math.radians lat1 in
  let lat2 := math.radians lat2 in
  sin_lat <- math.sin (fdiv d_lat (of_int 2)) ;;
  sin_lat' <- math.sin (fdiv d_lat (of_int 2)) ;;
  sin_lon <- math.sin (fdiv d_lon (of_int 2)) ;;
  sin_lon' <- math.sin (fdiv d_lon (of_int 2)) ;;
  cos_lat1 <- math.cos lat1 ;;
  cos_lat2 <- math.cos lat2 ;;
  let a := fadd (fmul sin_lat sin_lat')
                (fmul (fmul (fmul sin_lon sin_lon') cos_lat1) cos_lat2) in
  sqrt_a <- math.sqrt a ;;
  sqrt_1_a <- math.sqrt (fsub (of_int 1) a) ;;
  let c := fmul (of_int 2) (math.atan2 sqrt_a sqrt_1_a) in
  Return (fmul (fmul R c) (of_int 1000)).

(** ** Data model (main.py, lines 15-26) *)

Record Restaurant : Type := mkRestaurant {
  id : string;
  rating : Z;
  name : string;
  site : string;
  email : string;
  phone : string;
  street : string;
  city : string;
  state : string;
  lat : float;
  lng : float
}.

(** The [restaurants] table, as the sequence of its rows in scan order. *)
Definition database : Type := list Restaurant.

(** A row of [SELECT rating, lat, lng FROM restaurants]: the tuple
    [(row[0], row[1], row[2])]. *)
Definition row : Type := (Z * float * float)%type.

Definition row0 (r : row) : Z := fst (fst r).
Definition row1 (r : row) : float := snd (fst r).
Definition row2 (r : row) : float := snd r.

(** [SELECT rating, lat, lng FROM restaurants] followed by [fetchall()]. *)
Definition select_rating_lat_lng (db : database) : list row :=
  map (fun r => ((rating r, lat r, lng r) : row)) db.

(** [SELECT * FROM restaurants WHERE id=?] followed by [fetchone()]. *)
Definition select_by_id (db : database) (restaurant_id : string)
  : option Restaurant :=
  find (fun r => String.eqb (id r) restaurant_id) db.

(** JSON values of the response bodies. *)
Inductive value : Type :=
| Int (z : Z)
| Float (x : float).

(** A Python [dict] with string keys, in insertion order. *)
Definition dict : Type := list (string * value).

Inductive body : Type :=
| Json (d : dict)
| Model (r : Restaurant)
| Models (rs : list Restaurant).

(** ** [get_restaurants_statistics] (main.py, lines 222-261) *)

(** The list comprehension bound to [inside_circle]: the rows are visited
    in order, and an exception raised by [haversine_distance] on a row
    leaves the comprehension. *)
Fixpoint inside_circle (latitude longitude : float) (radius : Z)
  (rows : list row) : result (list row) :=
  match rows with
  | [] => Return []
  | row :: rows' =>
    d <- haversine_distance latitude longitude (row1 row) (row2 row) ;;
    rest <- inside_circle latitude longitude radius rows' ;;
    Return (if float_le_int d radius then row :: rest else rest)
  end.

Definition get_restaurants_statistics (db : database)
  (latitude longitude : option float) (radius : option Z) : result body :=
  match latitude, longitude, radius with
  | Some latitude, Some longitude, Some radius =>
    if negb (int_le_float (-90) latitude && float_le_int latitude 90) then
      Raise (HTTPException 400
               "Invalid latitude value. Must be between -90 and 90.")
    else if negb (int_le_float (-180) longitude && float_le_int longitude 180)
    then
      Raise (HTTPException 400
               "Invalid longitude value. Must be between -180 and 180.")
    else if (radius <=? 0)%Z then
      Raise (HTTPException 400
               "Invalid radius value. Must be greater than 0.")
    else
      let rows := select_rating_lat_lng db in
      inside_circle <- inside_circle latitude longitude radius rows ;;
      match inside_circle with
      | [] => Raise (HTTPException 404 "Restaurants not found")
      | _ :: _ =>
        let count := length inside_circle in
        let avg := int_truediv (py_sum (map row0 inside_circle))
                               (Z.of_nat count) in
        std <- statistics.stdev (map row0 inside_circle) ;;
        Return (Json [("count", Int (Z.of_nat count));
                      ("avg", Float avg);
                      ("std", Float std)]%string)
      end
  | _, _, _ =>
    Raise (HTTPException 400
             "Latitude, longitude, and radius are required query parameters.")
  end.

(** ** The read handlers of the CRUD layer (main.py, lines 76-125) *)

Definition get_all_restaurants (db : database) : result body :=
  Return (Models db).

Definition get_restaurant_by_id (db : database) (restaurant_id : string)
  : result body :=
  match select_by_id db restaurant_id with
  | None => Raise (HTTPException 404 "Restaurant not found")
  | Some r => Return (Model r)
  end.

End Model.

(** ** Routing

    Every [@app.<method>(path)] decorator appends a route to the
    application's router; a request is served by the first route, in
    registration order, whose method and path both match.  A path
    parameter [{name}] matches any single non-empty segment. *)

Inductive http_method : Type := GET | POST | PUT | DELETE.

Definition http_method_eqb (m1 m2 : http_method) : bool :=
  match m1, m2 with
  | GET, GET | POST, POST | PUT, PUT | DELETE, DELETE => true
  | _, _ => false
  end.

Inductive segment : Type :=
| Lit (s : string)
| Param (name : string).

Inductive endpoint : Type :=
| ep_get_all_restaurants
| ep_get_restaurant_by_id
| ep_create_restaurant
| ep_update_restaurant
| ep_delete_restaurant
| ep_get_restaurants_statistics.

Record route : Type := mkRoute {
  route_method : http_method;
  route_path : list segment;
  route_endpoint : endpoint
}.

(** The routes of [app], in the order in which main.py registers them
    (lines 76, 100, 128, 153, 187 and 222). *)
Definition routes : list route :=
  [ mkRoute GET [Lit "restaurants"] ep_get_all_restaurants;
    mkRoute GET [Lit "restaurants"; Param "restaurant_id"]
            ep_get_restaurant_by_id;
    mkRoute POST [Lit "restaurants"] ep_create_restaurant;
    mkRoute PUT [Lit "restaurants"; Param "restaurant_id"]
            ep_update_restaurant;
    mkRoute DELETE [Lit "restaurants"; Param "restaurant_id"]
            ep_delete_restaurant;
    mkRoute GET [Lit "restaurants"; Lit "statistics"]
            ep_get_restaurants_statistics ]%string.

(** Matching a request path, given as its list of segments, against a
    route path; the result binds the path parameters. *)
Fixpoint match_path (pattern : list segment) (path : list string)
  : option (list (string * string)) :=
  match pattern, path with
  | [], [] => Some []
  | Lit s :: pattern', seg :: path' =>
    if String.eqb s seg then match_path pattern' path' else None
  | Param name :: pattern', seg :: path' =>
    if String.eqb seg "" then None
    else match match_path pattern' path' with
         | Some params => Some ((name, seg) :: params)
         | None => None
         end
  | _, _ => None
  end.

Fixpoint dispatch_in (rs : list route) (m : http_method) (path : list string)
  : option (endpoint * list (string * string)) :=
  match rs with
  | [] => None
  | r :: rs' =>
    if http_method_eqb (route_method r) m then
      match match_path (route_path r) path with
      | Some params => Some (route_endpoint r, params)
      | None => dispatch_in rs' m path
      end
    else dispatch_in rs' m path
  end.

Definition dispatch : http_method -> list string ->
                      option (endpoint * list (string * string)) :=
  dispatch_in routes.

Fixpoint path_param (name : string) (params : list (string * string))
  : string :=
  match params with
  | [] => ""
  | (k, v) :: params' =>
    if String.eqb k name then v else path_param name params'
  end.

(** The outcome of a write handler. *)
Inductive outcome (A : Type) : Type :=
| Returns (a : A)
| Raises (e : exception)
| RaisesOverflowError.

Arguments Returns {A} a.
Arguments Raises {A} e.
Arguments RaisesOverflowError {A}.

Section Serving.

Context {FA : FloatArith}.

(** The query parameters read by the statistics handler, after the
    framework has parsed them ([None] when a parameter is absent). *)
Record query : Type := mkQuery {
  q_latitude : option float;
  q_longitude : option float;
  q_radius : option Z
}.

(** Serving a [GET] request. *)
Definition serve_get (db : database) (path : list string) (q : query)
  : result body :=
  match dispatch GET path with
  | Some (ep_get_all_restaurants, _) => get_all_restaurants db
  | Some (ep_get_restaurant_by_id, params) =>
    get_restaurant_by_id db (path_param "restaurant_id" params)
  | Some (ep_get_restaurants_statistics, _) =>
    get_restaurants_statistics db (q_latitude q) (q_longitude q) (q_radius q)
  | _ => Raise (HTTPException 404 "Not Found")
  end.

(** ** The contracts of the specification *)

(** The validation contract: the checks in their stated order, the first
    failing check deciding the outcome. *)
Inductive validation_outcome : Type :=
| MissingParameter
| InvalidLatitude
| InvalidLongitude
| InvalidRadius
| SuccessPath.

Definition all_present (latitude longitude : option float) (radius : option Z)
  : option (float * float * Z) :=
  match latitude, longitude, radius with
  | Some la, Some lo, Some ra => Some (la, lo, ra)
  | _, _, _ => None
  end.

(** [x] lies in the closed interval from [lo] to [hi]. *)
Definition in_range (lo hi : Z) (x : float) : bool :=
  int_le_float lo x && float_le_int x hi.

Definition validation_contract (latitude longitude : option float)
  (radius : option Z) : validation_outcome :=
  match all_present latitude longitude radius with
  | None => MissingParameter
  | Some (la, lo, ra) =>
    if in_range (-90) 90 la then
      if in_range (-180) 180 lo then
        if (0 <? ra)%Z then SuccessPath else InvalidRadius
      else InvalidLongitude
    else InvalidLatitude
  end.

(** Which outcome a result of the statistics handler stands for: each
    validation failure is a 400 with its own detail message; anything else
    comes from the success path. *)
Definition fired (r : result body) : validation_outcome :=
  match r with
  | Raise (HTTPException 400 detail) =>
    if String.eqb detail
         "Latitude, longitude, and radius are required query parameters."
    then MissingParameter
    else if String.eqb detail
         "Invalid latitude value. Must be between -90 and 90."
    then InvalidLatitude
    else if String.eqb detail
         "Invalid longitude value. Must be between -180 and 180."
    then InvalidLongitude
    else if String.eqb detail
         "Invalid radius value. Must be greater than 0."
    then InvalidRadius
    else SuccessPath
  | _ => SuccessPath
  end.

(** A request that passes all four checks. *)
Definition valid_request (latitude longitude : float) (radius : Z) : Prop :=
  in_range (-90) 90 latitude = true /\
  in_range (-180) 180 longitude = true /\ (0 < radius)%Z.

(** The distance of a row from the query point is computed and is at most
    the radius, respectively is computed and exceeds it. *)
Definition within (latitude longitude : float) (radius : Z) (r : row) : Prop :=
  exists d,
    haversine_distance latitude longitude (row1 r) (row2 r) = Return d /\
    float_le_int d radius = true.

Definition beyond (latitude longitude : float) (radius : Z) (r : row) : Prop :=
  exists d,
    haversine_distance latitude longitude (row1 r) (row2 r) = Return d /\
    float_le_int d radius = false.

(** Two comprehensions end alike: both raise [ValueError], or both return,
    one list a permutation of the other. *)
Definition alike (r r' : result (list row)) : Prop :=
  (r = Raise ValueError /\ r' = Raise ValueError)
  \/ exists f f', r = Return f /\ r' = Return f' /\ Permutation f f'.

(** The sample standard deviation of two or more ratings. *)
Definition sample_std (xs : list Z) : float :=
  float_sqrt_of_frac (statistics.variance_num xs) (statistics.variance_den xs).

(** Steps 2 to 5 of the statistics engine over a given filtered set: no
    match for the empty set, otherwise the count, the mean and the sample
    standard deviation of the ratings. *)
Definition aggregate (filtered : list row) : result body :=
  let xs := map row0 filtered in
  match length xs with
  | O => Raise (HTTPException 404 "Restaurants not found")
  | S O => Raise StatisticsError
  | n =>
    Return (Json [("count", Int (Z.of_nat n));
                  ("avg", Float (int_truediv (fold_right Z.add 0%Z xs)
                                             (Z.of_nat n)));
                  ("std", Float (sample_std xs))]%string)
  end.

(** ** The write handlers of the CRUD layer (main.py, lines 128-206)

    The table is threaded through the write handlers: each takes the table
    as it is before the request and gives back its outcome together with
    the table as it is afterwards.  The store is taken to be reachable, so
    that the only [sqlite3.Error] is the violation of the primary key. *)

(** SQLite stores an INTEGER in 64 bits.  Binding a Python [int] outside
    this range makes [cursor.execute] raise [OverflowError], which is not an
    [sqlite3.Error] and so is not turned into an [HTTPException]. *)
Definition fits_int64 (z : Z) : bool :=
  ((-9223372036854775808 <=? z) && (z <=? 9223372036854775807))%Z.

(** The condition [id=?] of the statements. *)
Definition has_id (restaurant_id : string) (r : Restaurant) : bool :=
  String.eqb (id r) restaurant_id.

(** [cursor.rowcount] after an [UPDATE] or [DELETE ... WHERE id=?]. *)
Definition rowcount (restaurant_id : string) (db : database) : nat :=
  length (filter (has_id restaurant_id) db).

(** [create_restaurant] (lines 128-150): [INSERT INTO restaurants]; the
    column [id] is the primary key, so that inserting an identifier already
    in the table raises [sqlite3.IntegrityError], caught as [sqlite3.Error]
    before the commit. *)
Definition create_restaurant (db : database) (restaurant : Restaurant)
  : outcome Restaurant * database :=
  if negb (fits_int64 (rating restaurant)) then (RaisesOverflowError, db)
  else if existsb (has_id (id restaurant)) db then
    (Raises (HTTPException 500 "Database error occurred"), db)
  else (Returns restaurant, db ++ [restaurant]).

(** The row written by [UPDATE restaurants SET rating=?, ..., lng=?]: every
    column but [id] is taken from the request body. *)
Definition updated_row (restaurant r : Restaurant) : Restaurant :=
  {| id := id r; rating := rating restaurant; name := name restaurant;
     site := site restaurant; email := email restaurant;
     phone := phone restaurant; street := street restaurant;
     city := city restaurant; state := state restaurant;
     lat := lat restaurant; lng := lng restaurant |}.

(** [update_restaurant] (lines 153-184): the update is committed before
    [cursor.rowcount] is looked at. *)
Definition update_restaurant (db : database) (restaurant_id : string)
  (restaurant : Restaurant) : outcome Restaurant * database :=
  if negb (fits_int64 (rating restaurant)) then (RaisesOverflowError, db)
  else
    let db' :=
      map (fun r => if has_id restaurant_id r
                    then updated_row restaurant r else r) db in
    if (rowcount restaurant_id db =? 0)%nat then
      (Raises (HTTPException 404 "Restaurant not found"), db')
    else
      let updated_restaurant :=
        {| id := restaurant_id; rating := rating restaurant;
           name := name restaurant; site := site restaurant;
           email := email restaurant; phone := phone restaurant;
           street := street restaurant; city := city restaurant;
           state := state restaurant; lat := lat restaurant;
           lng := lng restaurant |} in
      (Returns updated_restaurant, db').

(** [delete_restaurant] (lines 187-206): the deletion is committed before
    [cursor.rowcount] is looked at; the body returned is the dictionary
    with the single key [message]. *)
Definition delete_restaurant (db : database) (restaurant_id : string)
  : outcome (list (string * string)) * database :=
  let db' := filter (fun r => negb (has_id restaurant_id r)) db in
  if (rowcount restaurant_id db =? 0)%nat then
    (Raises (HTTPException 404 "Restaurant not found"), db')
  else
    (Returns [("message", "Restaurant deleted successfully")]%string, db').


(** Whether a handler returned rather than raised. *)
Definition returned {A : Type} (o : outcome A) : bool :=
  match o with
  | Returns _ => true
  | _ => false
  end.

(** The primary key: no two rows of the table share an identifier. *)
Definition primary_key (db : database) : Prop := NoDup (map id db).

(** ** [create_table_and_import_data] (main.py, lines 29-64)

    A row of the CSV file is a dictionary of strings.  [INSERT OR IGNORE]
    skips a row whose identifier is already in the table.  The identifier
    is stored as it is read; the numeric columns are stored after SQLite
    has converted the text by the affinity of the column, a conversion that
    is left as a parameter here; the numeric fields of the file are taken
    to be well formed, so that the stored values are numbers. *)

Record csv_row : Type := mkCsvRow {
  csv_id : string;
  csv_rating : string;
  csv_name : string;
  csv_site : string;
  csv_email : string;
  csv_phone : string;
  csv_street : string;
  csv_city : string;
  csv_state : string;
  csv_lat : string;
  csv_lng : string
}.

Variable to_integer : string -> Z.
Variable to_real : string -> float.

Definition stored_row (row : csv_row) : Restaurant :=
  {| id := csv_id row; rating := to_integer (csv_rating row);
     name := csv_name row; site := csv_site row; email := csv_email row;
     phone := csv_phone row; street := csv_street row; city := csv_city row;
     state := csv_state row; lat := to_real (csv_lat row);
     lng := to_real (csv_lng row) |}.

(** One [INSERT OR IGNORE INTO restaurants]. *)
Definition insert_or_ignore (db : database) (row : csv_row) : database :=
  if existsb (has_id (csv_id row)) db then db else db ++ [stored_row row].

(** The loop over the rows of the file, on the table found at startup
    ([CREATE TABLE IF NOT EXISTS] leaves an existing table as it is). *)
Definition create_table_and_import_data (reader : list csv_row)
  (db : database) : database :=
  fold_left insert_or_ignore reader db.

End Serving.

(** ** Laws of the arithmetic

    Facts of floating-point arithmetic under which some theorems are
    stated.  They hold of IEEE 754 arithmetic with a C library whose
    functions are exact at the arguments named, and of the arithmetic of
    the real numbers. *)

Section Laws.

Context {FA : FloatArith}.

(** [x == 0]: [x] is one of the two zeros. *)
Definition is_zero (x : float) : bool := float_le_int x 0 && int_le_float 0 x.

(** [x] is neither infinite nor a NaN: it lies between two integers. *)
Definition finite (x : float) : Prop :=
  exists lo hi : Z, int_le_float lo x = true /\ float_le_int x hi = true.

(** A float that is at most an integer is at most every larger integer. *)
Class CompareLaws : Prop := {
  float_le_int_mono : forall (x : float) (n m : Z),
    float_le_int x n = true -> (n <= m)%Z -> float_le_int x m = true
}.

(** Computations on zeros and ones are exact. *)
Class ZeroLaws : Prop := {
  of_int_le : forall n m : Z,
    (Z.abs n <= 2 ^ 53)%Z -> float_le_int (of_int n) m = (n <=? m)%Z;
  of_int_ge : forall n m : Z,
    (Z.abs n <= 2 ^ 53)%Z -> int_le_float m (of_int n) = (m <=? n)%Z;
  of_int_lt : forall n m : Z,
    (Z.abs n <= 2 ^ 53)%Z -> float_lt_int (of_int n) m = (n <? m)%Z;
  zero_not_negative : forall x, is_zero x = true -> float_lt_int x 0 = false;
  finite_not_inf : forall x, finite x -> is_inf x = false;
  deg_to_rad_finite : finite deg_to_rad;
  radians_finite : forall x, finite x -> finite (fmul x deg_to_rad);
  fsub_diag : forall x, finite x -> is_zero (fsub x x) = true;
  fsub_zero_r : forall y, is_zero y = true -> fsub (of_int 1) y = of_int 1;
  fadd_zero : forall x y,
    is_zero x = true -> is_zero y = true -> is_zero (fadd x y) = true;
  fmul_zero_l : forall x y,
    is_zero x = true -> finite y -> is_zero (fmul x y) = true;
  fmul_zero_r : forall x y,
    finite x -> is_zero y = true -> is_zero (fmul x y) = true;
  fdiv_zero_l : forall x y,
    is_zero x = true -> finite y -> is_zero y = false ->
    is_zero (fdiv x y) = true;
  c_sqrt_zero : forall x, is_zero x = true -> is_zero (c_sqrt x) = true;
  c_sqrt_one : c_sqrt (of_int 1) = of_int 1;
  c_sin_zero : forall x, is_zero x = true -> is_zero (c_sin x) = true;
  c_cos_finite : forall x, finite x -> finite (c_cos x);
  c_atan2_zero_one : forall y,
    is_zero y = true -> is_zero (c_atan2 y (of_int 1)) = true;
  int_truediv_exact : forall q b : Z,
    b <> 0%Z -> (Z.abs q <= 2 ^ 53)%Z -> int_truediv (q * b) b = of_int q;
  float_sqrt_of_frac_square : forall k d : Z,
    (0 <= k <= 2 ^ 26)%Z -> (0 < d)%Z ->
    float_sqrt_of_frac (k * k * d) d = of_int k
}.

(** Changing the sign of an operand changes the sign of the result, and
    nothing else. *)
Class SignLaws : Prop := {
  fsub_antisym : forall x y, x <> y -> fsub y x = fneg (fsub x y);
  fmul_neg_l : forall x y, fmul (fneg x) y = fneg (fmul x y);
  fmul_neg_neg : forall x y, fmul (fneg x) (fneg y) = fmul x y;
  fdiv_neg_l : forall x y, fdiv (fneg x) y = fneg (fdiv x y);
  c_sin_odd : forall x, c_sin (fneg x) = fneg (c_sin x);
  is_inf_neg : forall x, is_inf (fneg x) = is_inf x
}.

End Laws.

Arguments CompareLaws FA : clear implicits.
Arguments ZeroLaws FA : clear implicits.
Arguments SignLaws FA : clear implicits.

(** ** IEEE 754 binary64 arithmetic

    The arithmetic of the program: the operations are those of the
    primitive floats; the comparisons with an integer go through the exact
    value of the float, a mantissa times a power of two; [sin], [cos] and
    [atan2] are those of a C library, a parameter of the arithmetic. *)

(** The float nearest to [m * 2^e], ties to even. *)
Definition round_to_float (m e : Z) : PrimFloat.float :=
  SF2Prim (binary_normalize prec emax m e false).

(** [float(z)]: the float nearest to an integer. *)
Definition float_of_Z (z : Z) : PrimFloat.float := round_to_float z 0.

(** [a / b] on integers, for a positive divisor (the program divides by a
    count that is at least 1): the float nearest to the quotient.  The
    quotient is taken with more than 63 bits, and a last bit records
    whether the division left a remainder. *)
Definition Z_truediv (a b : Z) : PrimFloat.float :=
  let k := (64 + Z.log2 b)%Z in
  let n := (Z.abs a * 2 ^ k)%Z in
  let q := (n / b)%Z in
  let sticky := if (n mod b =? 0)%Z then 0%Z else 1%Z in
  let m := (2 * q + sticky)%Z in
  round_to_float (if (a <? 0)%Z then (- m)%Z else m) (- k - 1).

(** The float nearest to the square root of the fraction [n / d], for
    [n >= 0] and [d > 0] ([statistics._float_sqrt_of_frac]). *)
Definition Z_sqrt_of_frac (n d : Z) : PrimFloat.float :=
  let k := (64 + Z.log2 d)%Z in
  let x := (n * 4 ^ k)%Z in
  let q := (x / d)%Z in
  let r := Z.sqrt q in
  let sticky :=
    if andb (r * r =? q)%Z (x mod d =? 0)%Z then 0%Z else 1%Z in
  round_to_float (2 * r + sticky) (- k - 1).

Definition sf_le_int (f : spec_float) (n : Z) : bool :=
  match f with
  | S754_zero _ => (0 <=? n)%Z
  | S754_infinity s => s
  | S754_nan => false
  | S754_finite s m e =>
    let v := if s then Zneg m else Zpos m in
    if (0 <=? e)%Z then (v * 2 ^ e <=? n)%Z else (v <=? n * 2 ^ (- e))%Z
  end.

Definition int_le_sf (n : Z) (f : spec_float) : bool :=
  match f with
  | S754_zero _ => (n <=? 0)%Z
  | S754_infinity s => negb s
  | S754_nan => false
  | S754_finite s m e =>
    let v := if s then Zneg m else Zpos m in
    if (0 <=? e)%Z then (n <=? v * 2 ^ e)%Z else (n * 2 ^ (- e) <=? v)%Z
  end.

Definition sf_lt_int (f : spec_float) (n : Z) : bool :=
  match f with
  | S754_zero _ => (0 <? n)%Z
  | S754_infinity s => s
  | S754_nan => false
  | S754_finite s m e =>
    let v := if s then Zneg m else Zpos m in
    if (0 <=? e)%Z then (v * 2 ^ e <? n)%Z else (v <? n * 2 ^ (- e))%Z
  end.

(** The functions of the C library that the [math] module calls. *)
Record Libm : Type := mkLibm {
  libm_sin : PrimFloat.float -> PrimFloat.float;
  libm_cos : PrimFloat.float -> PrimFloat.float;
  libm_atan2 : PrimFloat.float -> PrimFloat.float -> PrimFloat.float
}.

Definition ieee (libm : Libm) : FloatArith := {|
  float := PrimFloat.float;
  of_int := float_of_Z;
  fadd := PrimFloat.add;
  fsub := PrimFloat.sub;
  fmul := PrimFloat.mul;
  fdiv := PrimFloat.div;
  fneg := PrimFloat.opp;
  float_le_int := fun x n => sf_le_int (Prim2SF x) n;
  int_le_float := fun n x => int_le_sf n (Prim2SF x);
  float_lt_int := fun x n => sf_lt_int (Prim2SF x) n;
  is_inf := PrimFloat.is_infinity;
  deg_to_rad := 0x1.1df46a2529d39p-6%float;
  c_sqrt := PrimFloat.sqrt;
  c_sin := libm_sin libm;
  c_cos := libm_cos libm;
  c_atan2 := libm_atan2 libm;
  int_truediv := Z_truediv;
  float_sqrt_of_frac := Z_sqrt_of_frac
|}.

(** *** The values of the C library

    The values of [sin], [cos] and [atan2] in glibc (x86-64) at the
    arguments that the examples reach: an argument, then the value. *)
Definition sin_values : list (PrimFloat.float * PrimFloat.float) :=
  [ (0x0.0p+0%float, 0x0.0p+0%float);
    (0x1.921fb54442d18p+0%float, 0x1.0000000000000p+0%float);
    (0x1.d0ad2c7c63f7dp-4%float, 0x1.cfae2c4ef6cf5p-4%float);
    (0x1.26e40d7653223p-1%float, 0x1.16daed770771dp-1%float);
    ((-0x1.d0ad2c7c63f7dp-4)%float, (-0x1.cfae2c4ef6cf5p-4)%float);
    ((-0x1.26e40d7653223p-1)%float, (-0x1.16daed770771dp-1)%float);
    ((-0x1.1df46a2529d39p-3)%float, (-0x1.1d06c968d9e19p-3)%float);
    (0x1.492beb441bce7p-14%float, 0x1.492beb3e7082ep-14%float);
    (0x1.6e6127ff9d971p+0%float, 0x1.fb046a930947ap-1%float) ].

Definition cos_values : list (PrimFloat.float * PrimFloat.float) :=
  [ (0x0.0p+0%float, 0x1.0000000000000p+0%float);
    (0x1.657184ae74487p-3%float, 0x1.f838b8c811c17p-1%float);
    ((-0x1.8da7e39bae2a3p+0)%float, 0x1.1df0b2b89dd37p-6%float);
    ((-0x1.53923e0c21ab4p+0)%float, 0x1.ef74bf2e4b91bp-3%float);
    (0x1.1df46a2529d39p-3%float, 0x1.fb046a930947ap-1%float);
    ((-0x1.1df46a2529d39p-3)%float, 0x1.fb046a930947ap-1%float);
    (0x1.492beb441bce7p-13%float, 0x1.ffffff962f857p-1%float);
    ((-0x1.6e6127ff9d971p+0)%float, 0x1.1d06c968d9e1ap-3%float);
    (0x1.6e6127ff9d971p+0%float, 0x1.1d06c968d9e1ap-3%float) ].

Definition atan2_values
  : list (PrimFloat.float * PrimFloat.float * PrimFloat.float) :=
  [ (0x0.0p+0%float, 0x1.0000000000000p+0%float, 0x0.0p+0%float);
    (0x1.0000000000000p+0%float, 0x0.0p+0%float, 0x1.921fb54442d18p+0%float);
    (0x1.e5cf66366c86fp-4%float, 0x1.fc62d096c585ep-1%float,
     0x1.e6f4d9167636ap-4%float);
    (0x1.e5cf66366c86ep-4%float, 0x1.fc62d096c585ep-1%float,
     0x1.e6f4d91676369p-4%float);
    (0x1.492beb3e7082ep-14%float, 0x1.ffffffe58be16p-1%float,
     0x1.492beb441bce6p-14%float) ].

(** A C library takes these values. *)
Definition glibc_values (libm : Libm) : Prop :=
  Forall (fun p => libm_sin libm (fst p) = snd p) sin_values
  /\ Forall (fun p => libm_cos libm (fst p) = snd p) cos_values
  /\ Forall (fun p => libm_atan2 libm (fst (fst p)) (snd (fst p)) = snd p)
            atan2_values.

(** A function that takes the values of a table at its arguments, and the
    values of [f] elsewhere. *)
Fixpoint lookup (table : list (PrimFloat.float * PrimFloat.float))
  (f : PrimFloat.float -> PrimFloat.float) (x : PrimFloat.float)
  : PrimFloat.float :=
  match table with
  | [] => f x
  | (a, v) :: table' =>
    if PrimFloat.Leibniz.eqb x a then v else lookup table' f x
  end.

Fixpoint lookup2
  (table : list (PrimFloat.float * PrimFloat.float * PrimFloat.float))
  (f : PrimFloat.float -> PrimFloat.float -> PrimFloat.float)
  (y x : PrimFloat.float) : PrimFloat.float :=
  match table with
  | [] => f y x
  | (b, a, v) :: table' =>
    if PrimFloat.Leibniz.eqb y b && PrimFloat.Leibniz.eqb x a then v
    else lookup2 table' f y x
  end.

(** A library with its values at the arguments of the tables read from the
    tables: the same library, when it takes the values of glibc there. *)
Definition tabled (libm : Libm) : Libm :=
  {| libm_sin := lookup sin_values (libm_sin libm);
     libm_cos := lookup cos_values (libm_cos libm);
     libm_atan2 := lookup2 atan2_values (libm_atan2 libm) |}.

(** A library that takes the values of glibc at the arguments of the
    tables; what it answers elsewhere plays no role. *)
Definition table_libm : Libm :=
  tabled {| libm_sin := fun _ => PrimFloat.nan;
            libm_cos := fun _ => PrimFloat.nan;
            libm_atan2 := fun _ _ => PrimFloat.nan |}.

(** ** The arithmetic of the real numbers *)

(** The angle of the point [(x, y)], in [(-PI, PI]]. *)
Definition real_atan2 (y x : R) : R :=
  if Rlt_dec 0 x then atan (y / x)
  else if Rlt_dec x 0 then
    (if Rle_dec 0 y then atan (y / x) + PI else atan (y / x) - PI)
  else
    (if Rlt_dec 0 y then PI / 2
     else if Rlt_dec y 0 then - (PI / 2)
     else 0).

Definition exact_arith : FloatArith := {|
  float := R;
  of_int := IZR;
  fadd := Rplus;
  fsub := Rminus;
  fmul := Rmult;
  fdiv := Rdiv;
  fneg := Ropp;
  float_le_int := fun x n => if Rle_dec x (IZR n) then true else false;
  int_le_float := fun n x => if Rle_dec (IZR n) x then true else false;
  float_lt_int := fun x n => if Rlt_dec x (IZR n) then true else false;
  is_inf := fun _ => false;
  deg_to_rad := PI / 180;
  c_sqrt := sqrt;
  c_sin := sin;
  c_cos := cos;
  c_atan2 := real_atan2;
  int_truediv := fun a b => IZR a / IZR b;
  float_sqrt_of_frac := fun n d => sqrt (IZR n / IZR d)
|}.

(** ** Sample data *)

Section Samples.

Context {FA : FloatArith}.

(** A record with the given identifier, rating and position. *)
Definition restaurant_at (rid : string) (stars : Z) (la lo : float)
  : Restaurant :=
  {| id := rid; rating := stars; name := "Fonda"; site := "fonda.example";
     email := "info@fonda.example"; phone := "555-0100";
     street := "Calle 1"; city := "Merida"; state := "Yucatan";
     lat := la; lng := lo |}.

(** A record has a given rating and position. *)
Definition rated_at (r : Restaurant) (stars : Z) (la lo : float) : Prop :=
  rating r = stars /\ lat r = la /\ lng r = lo.

(** Two records at the origin and one at the antipode of the origin. *)
Definition db_two_near_one_far : database :=
  [ restaurant_at "a" 3 (of_int 0) (of_int 0);
    restaurant_at "b" 5 (of_int 0) (of_int 0);
    restaurant_at "c" 1 (of_int 0) (of_int 180) ]%string.

(** One record at the origin and one at the antipode of the origin. *)
Definition db_one_near_one_far : database :=
  [ restaurant_at "a" 4 (of_int 0) (of_int 0);
    restaurant_at "c" 1 (of_int 0) (of_int 180) ]%string.

(** One record, at the antipode of the origin. *)
Definition db_one_far : database :=
  [ restaurant_at "c" 1 (of_int 0) (of_int 180) ]%string.

(** Three records at latitude 10, longitude 20, rated 1, 3 and 5. *)
Definition db_three_at_center : database :=
  [ restaurant_at "a" 1 (of_int 10) (of_int 20);
    restaurant_at "b" 3 (of_int 10) (of_int 20);
    restaurant_at "c" 5 (of_int 10) (of_int 20) ]%string.

(** Two records at the origin, both rated 4, and one at its antipode. *)
Definition db_equal_ratings : database :=
  [ restaurant_at "a" 4 (of_int 0) (of_int 0);
    restaurant_at "b" 4 (of_int 0) (of_int 0);
    restaurant_at "c" 1 (of_int 0) (of_int 180) ]%string.

(** Two records at the origin, both rated [2^53 + 1]. *)
Definition db_large_ratings : database :=
  [ restaurant_at "a" 9007199254740993 (of_int 0) (of_int 0);
    restaurant_at "b" 9007199254740993 (of_int 0) (of_int 0) ]%string.

(** One record, at latitude -8 and longitude 44: the antipode of
    latitude 8, longitude -136. *)
Definition db_near_antipode : database :=
  [ restaurant_at "c" 1 (of_int (-8)) (of_int 44) ]%string.

(** The query [latitude=0&longitude=0&radius=1000]. *)
Definition query_origin_1km : query :=
  {| q_latitude := Some (of_int 0); q_longitude := Some (of_int 0);
     q_radius := Some 1000%Z |}.

(** A row of the CSV file with the given identifier, rating and position,
    as the text read from the file. *)
Definition csv_row_at (rid stars la lo : string) : csv_row :=
  {| csv_id := rid; csv_rating := stars; csv_name := "Fonda";
     csv_site := "fonda.example"; csv_email := "info@fonda.example";
     csv_phone := "555-0100"; csv_street := "Calle 1"; csv_city := "Merida";
     csv_state := "Yucatan"; csv_lat := la; csv_lng := lo |}.

End Samples.

(** One record at latitude 0.008993216059187308 on the meridian of the
    origin (its computed distance from the origin is 1000.0 meters) and one
    at the origin. *)
Definition db_on_the_circle (libm : Libm) : @database (ieee libm) :=
  [ @restaurant_at (ieee libm) "a" 3 0x1.26b0906e16d29p-7%float 0%float;
    @restaurant_at (ieee libm) "b" 5 0%float 0%float ]%string.

(** The arithmetic in which the examples of the CRUD handlers are taken. *)
Definition table_arith : FloatArith := ieee table_libm.

(** ** Results *)

Lemma bind_return_inv {A B : Type} (r : result A) (k : A -> result B) (b : B) :
  bind r k = Return b -> exists a, r = Return a /\ k a = Return b.
Proof.
  destruct r as [a | e]; simpl; intros H; [| discriminate].
  exists a. split; [reflexivity | exact H].
Qed.

Lemma bind_raise_inv {A B : Type} (r : result A) (k : A -> result B)
  (e : exception) :
  bind r k = Raise e ->
  r = Raise e \/ exists a, r = Return a /\ k a = Raise e.
Proof.
  destruct r as [a | e']; simpl; intros H.
  - right. exists a. split; [reflexivity | exact H].
  - left. injection H as ->. reflexivity.
Qed.

(** ** The comprehension *)

Section Comprehension.

Context {FA : FloatArith}.

(** The only exception [haversine_distance] raises is [ValueError]. *)
Lemma haversine_raises (lat1 lon1 lat2 lon2 : float) (e : exception) :
  haversine_distance lat1 lon1 lat2 lon2 = Raise e -> e = ValueError.
Proof.
  unfold haversine_distance, math.sin, math.cos, math.sqrt. cbv zeta.
  repeat match goal with
         | |- context [if ?b then _ else _] => destruct b; simpl
         end;
    intros H; inversion H; reflexivity.
Qed.

Lemma inside_circle_cons (latitude longitude : float) (radius : Z)
  (r : row) (rows : list row) :
  inside_circle latitude longitude radius (r :: rows) =
  (d <- haversine_distance latitude longitude (row1 r) (row2 r) ;;
   rest <- inside_circle latitude longitude radius rows ;;
   Return (if float_le_int d radius then r :: rest else rest)).
Proof. reflexivity. Qed.

Lemma inside_circle_raises (latitude longitude : float) (radius : Z)
  (rows : list row) (e : exception) :
  inside_circle latitude longitude radius rows = Raise e ->
  e = ValueError /\
  exists r, In r rows /\
            haversine_distance latitude longitude (row1 r) (row2 r) =
            Raise ValueError.
Proof.
  induction rows as [| r rows IH]; [discriminate |].
  rewrite inside_circle_cons. intros H.
  destruct (haversine_distance latitude longitude (row1 r) (row2 r))
    as [d | e'] eqn:Hd; simpl in H.
  - destruct (inside_circle latitude longitude radius rows) as [rest | e'];
      simpl in H; [discriminate |].
    injection H as ->. destruct (IH eq_refl) as (He & r' & Hin & Hr').
    split; [exact He |]. exists r'. split; [right; exact Hin | exact Hr'].
  - injection H as ->. pose proof (haversine_raises _ _ _ _ _ Hd) as ->.
    split; [reflexivity |]. exists r. split; [left; reflexivity | exact Hd].
Qed.

Lemma inside_circle_In (latitude longitude : float) (radius : Z)
  (rows filtered : list row) (r : row) :
  inside_circle latitude longitude radius rows = Return filtered ->
  (In r filtered <-> In r rows /\ within latitude longitude radius r).
Proof.
  revert filtered. induction rows as [| r' rows IH]; intros filtered H.
  - injection H as <-. simpl. tauto.
  - rewrite inside_circle_cons in H.
    apply bind_return_inv in H. destruct H as (d & Hd & H).
    apply bind_return_inv in H. destruct H as (rest & Hrest & H).
    injection H as <-. specialize (IH rest Hrest).
    destruct (float_le_int d radius) eqn:Hle; simpl; rewrite IH; split.
    + intros [<- | [Hin Hw]].
      * split; [left; reflexivity |]. exists d. split; assumption.
      * split; [right; exact Hin | exact Hw].
    + intros [[<- | Hin] Hw]; [left; reflexivity | right; tauto].
    + intros [Hin Hw]. split; [right; exact Hin | exact Hw].
    + intros [[<- | Hin] Hw]; [| tauto].
      destruct Hw as (d' & Hd' & Hle'). rewrite Hd in Hd'.
      injection Hd' as <-. rewrite Hle in Hle'. discriminate.
Qed.

Lemma inside_circle_split (latitude longitude : float) (radius : Z)
  (rows filtered : list row) :
  inside_circle latitude longitude radius rows = Return filtered ->
  exists outside : list row,
    Permutation rows (filtered ++ outside)
    /\ Forall (beyond latitude longitude radius) outside.
Proof.
  revert filtered. induction rows as [| r rows IH]; intros filtered H.
  - injection H as <-. exists []. split; constructor.
  - rewrite inside_circle_cons in H.
    apply bind_return_inv in H. destruct H as (d & Hd & H).
    apply bind_return_inv in H. destruct H as (rest & Hrest & H).
    injection H as <-. destruct (IH rest Hrest) as (outside & Hperm & Hout).
    destruct (float_le_int d radius) eqn:Hle.
    + exists outside. split; [| exact Hout].
      simpl. apply perm_skip. exact Hperm.
    + exists (r :: outside). split.
      * apply Permutation_cons_app. exact Hperm.
      * constructor; [| exact Hout]. exists d. split; assumption.
Qed.

(** The comprehension completes exactly when the distance of every row is
    computed. *)
Lemma inside_circle_returns (latitude longitude : float) (radius : Z)
  (rows : list row) :
  (exists filtered,
      inside_circle latitude longitude radius rows = Return filtered)
  <->
  Forall (fun r => exists d,
              haversine_distance latitude longitude (row1 r) (row2 r) =
              Return d) rows.
Proof.
  induction rows as [| r rows IH].
  - split; [constructor | exists []; reflexivity].
  - rewrite inside_circle_cons. split.
    + intros [filtered H].
      apply bind_return_inv in H. destruct H as (d & Hd & H).
      apply bind_return_inv in H. destruct H as (rest & Hrest & _).
      constructor; [exists d; exact Hd |].
      apply IH. exists rest. exact Hrest.
    + intros H. inversion H as [| x xs [d Hd] Hrows]; subst.
      apply IH in Hrows. destruct Hrows as [rest Hrest].
      rewrite Hd, Hrest. simpl. eexists. reflexivity.
Qed.

Lemma inside_circle_app (latitude longitude : float) (radius : Z)
  (rows rows' : list row) :
  inside_circle latitude longitude radius (rows ++ rows') =
  (f <- inside_circle latitude longitude radius rows ;;
   f' <- inside_circle latitude longitude radius rows' ;;
   Return (f ++ f')).
Proof.
  induction rows as [| r rows IH].
  - simpl. destruct (inside_circle latitude longitude radius rows');
      reflexivity.
  - simpl app. rewrite !inside_circle_cons, IH.
    destruct (haversine_distance latitude longitude (row1 r) (row2 r));
      simpl; [| reflexivity].
    destruct (inside_circle latitude longitude radius rows); simpl;
      [| reflexivity].
    destruct (inside_circle latitude longitude radius rows'); simpl;
      [| reflexivity].
    destruct (float_le_int a radius); reflexivity.
Qed.

Lemma alike_refl (r : result (list row)) :
  (forall e, r = Raise e -> e = ValueError) -> alike r r.
Proof.
  intros Hval. destruct r as [f | e].
  - right. exists f, f. repeat split. apply Permutation_refl.
  - left. rewrite (Hval e eq_refl). split; reflexivity.
Qed.

Lemma alike_trans (r1 r2 r3 : result (list row)) :
  alike r1 r2 -> alike r2 r3 -> alike r1 r3.
Proof.
  intros [[H1 H2] | (f & f' & H1 & H2 & Hp)]
         [[H3 H4] | (g & g' & H3 & H4 & Hq)].
  - left. split; assumption.
  - rewrite H2 in H3. discriminate.
  - rewrite H2 in H3. discriminate.
  - rewrite H2 in H3. injection H3 as <-.
    right. exists f, g'. repeat split; try assumption.
    eapply perm_trans; eassumption.
Qed.

Lemma inside_circle_perm (latitude longitude : float) (radius : Z)
  (rows rows' : list row) :
  Permutation rows rows' ->
  alike (inside_circle latitude longitude radius rows)
        (inside_circle latitude longitude radius rows').
Proof.
  induction 1 as [| x xs ys _ IH | x y xs | xs ys zs _ IH1 _ IH2].
  - right. exists [], []. repeat split. constructor.
  - rewrite !inside_circle_cons.
    destruct (haversine_distance latitude longitude (row1 x) (row2 x))
      as [d | e] eqn:Hd; simpl.
    + destruct IH as [[-> ->] | (f & f' & -> & -> & Hp)]; simpl.
      * left. split; reflexivity.
      * right. do 2 eexists. repeat split.
        destruct (float_le_int d radius); [apply perm_skip |]; exact Hp.
    + left. rewrite (haversine_raises _ _ _ _ _ Hd). split; reflexivity.
  - destruct (haversine_distance latitude longitude (row1 x) (row2 x))
      as [dx | ex] eqn:Hx;
      destruct (haversine_distance latitude longitude (row1 y) (row2 y))
        as [dy | ey] eqn:Hy;
      repeat (rewrite ?inside_circle_cons, ?Hx, ?Hy; cbn [bind]);
      try rewrite (haversine_raises _ _ _ _ _ Hx);
      try rewrite (haversine_raises _ _ _ _ _ Hy);
      try (left; split; reflexivity).
    destruct (inside_circle latitude longitude radius xs) as [f | e] eqn:Hf;
      cbn [bind].
    + right. do 2 eexists. repeat split.
      destruct (float_le_int dx radius), (float_le_int dy radius);
        try apply Permutation_refl.
      apply perm_swap.
    + left. destruct (inside_circle_raises _ _ _ _ _ Hf) as [-> _].
      split; reflexivity.
  - eapply alike_trans; eassumption.
Qed.

End Comprehension.

(** ** Validation *)

Section Validation.

Context {FA : FloatArith}.

Lemma py_sum_acc (xs : list Z) (a : Z) :
  fold_left Z.add xs a = (a + fold_right Z.add 0 xs)%Z.
Proof.
  revert a. induction xs as [| x xs IH]; intros a; simpl.
  - lia.
  - rewrite IH. lia.
Qed.

Lemma py_sum_fold_right (xs : list Z) : py_sum xs = fold_right Z.add 0%Z xs.
Proof. unfold py_sum. rewrite py_sum_acc. lia. Qed.

Lemma stdev_two_or_more (xs : list Z) :
  (2 <= length xs)%nat -> statistics.stdev xs = Return (sample_std xs).
Proof.
  intros Hlen. unfold statistics.stdev. cbv zeta.
  replace (length xs <? 2)%nat with false
    by (symmetry; apply Nat.ltb_ge; exact Hlen).
  reflexivity.
Qed.

(** What the handler does with the filtered rows. *)
Lemma statistics_of_filtered (filtered : list row) :
  match filtered with
  | [] => Raise (HTTPException 404 "Restaurants not found")
  | _ :: _ =>
    std <- statistics.stdev (map row0 filtered) ;;
    Return (Json [("count", Int (Z.of_nat (length filtered)));
                  ("avg", Float (int_truediv (py_sum (map row0 filtered))
                                             (Z.of_nat (length filtered))));
                  ("std", Float std)]%string)
  end = aggregate filtered.
Proof.
  unfold aggregate. cbv zeta.
  destruct filtered as [| r1 [| r2 rs]]; [reflexivity | reflexivity |].
  rewrite stdev_two_or_more by (simpl; lia).
  rewrite py_sum_fold_right, length_map. reflexivity.
Qed.

(** Past validation, the handler answers with the aggregation over the
    filtered rows, or with the exception that left the comprehension. *)
Lemma statistics_success_path (db : database)
  (latitude longitude : float) (radius : Z) :
  valid_request latitude longitude radius ->
  get_restaurants_statistics db (Some latitude) (Some longitude) (Some radius) =
  (filtered <- inside_circle latitude longitude radius
                 (select_rating_lat_lng db) ;;
   aggregate filtered).
Proof.
  intros (Hlat & Hlon & Hrad).
  unfold get_restaurants_statistics. unfold in_range in Hlat, Hlon.
  rewrite Hlat, Hlon. simpl negb. cbv iota.
  replace (radius <=? 0)%Z with false by (symmetry; apply Z.leb_gt; lia).
  cbv zeta.
  destruct (inside_circle latitude longitude radius (select_rating_lat_lng db))
    as [filtered | e]; simpl; [| reflexivity].
  apply statistics_of_filtered.
Qed.

Lemma fired_aggregate (filtered : list row) :
  fired (aggregate filtered) = SuccessPath.
Proof.
  unfold aggregate. cbv zeta.
  destruct (length (map row0 filtered)) as [| [| n]]; reflexivity.
Qed.

Lemma statistics_return_inv (db : database)
  (latitude longitude : option float) (radius : option Z) (b : body) :
  get_restaurants_statistics db latitude longitude radius = Return b ->
  exists la lo ra filtered,
    latitude = Some la /\ longitude = Some lo /\ radius = Some ra /\
    valid_request la lo ra /\
    inside_circle la lo ra (select_rating_lat_lng db) = Return filtered /\
    (2 <= length filtered)%nat /\
    b = Json [("count", Int (Z.of_nat (length filtered)));
              ("avg", Float (int_truediv
                               (fold_right Z.add 0%Z (map row0 filtered))
                               (Z.of_nat (length filtered))));
              ("std", Float (sample_std (map row0 filtered)))]%string.
Proof.
  intros Hret.
  destruct latitude as [la |]; [| discriminate].
  destruct longitude as [lo |]; [| discriminate].
  destruct radius as [ra |]; [| discriminate].
  assert (Hvalid : valid_request la lo ra).
  { unfold get_restaurants_statistics in Hret. unfold valid_request, in_range.
    destruct (int_le_float (-90) la && float_le_int la 90);
      [| discriminate].
    destruct (int_le_float (-180) lo && float_le_int lo 180);
      [| discriminate].
    destruct (ra <=? 0)%Z eqn:Hra; [discriminate |].
    apply Z.leb_gt in Hra. repeat split. exact Hra. }
  rewrite statistics_success_path in Hret by exact Hvalid.
  apply bind_return_inv in Hret. destruct Hret as (filtered & Hf & Hagg).
  exists la, lo, ra, filtered. repeat (split; [reflexivity |]).
  split; [exact Hvalid |]. split; [exact Hf |].
  unfold aggregate in Hagg. cbv zeta in Hagg. rewrite length_map in Hagg.
  destruct (length filtered) as [| [| n]] eqn:Hn;
    [discriminate | discriminate |].
  injection Hagg as <-. split; [lia | reflexivity].
Qed.

Lemma statistics_two_or_more (db : database)
  (latitude longitude : float) (radius : Z) (filtered : list row) :
  valid_request latitude longitude radius ->
  inside_circle latitude longitude radius (select_rating_lat_lng db) =
  Return filtered ->
  (2 <= length filtered)%nat ->
  get_restaurants_statistics db (Some latitude) (Some longitude) (Some radius) =
  Return (Json [("count", Int (Z.of_nat (length filtered)));
                ("avg", Float (int_truediv
                                 (fold_right Z.add 0%Z (map row0 filtered))
                                 (Z.of_nat (length filtered))));
                ("std", Float (sample_std (map row0 filtered)))]%string).
Proof.
  intros Hvalid Hf Hlen.
  rewrite statistics_success_path by exact Hvalid. rewrite Hf. simpl.
  unfold aggregate. cbv zeta. rewrite length_map.
  destruct (length filtered) as [| [| n]]; [lia | lia | reflexivity].
Qed.

End Validation.

(** C3: on every statistics request the handler's outcome is the one the
    validation contract names: the four checks are made in the order
    (1) all parameters present, (2) latitude in [[-90, 90]], (3) longitude
    in [[-180, 180]], (4) radius > 0, and the first failing check decides;
    with longitude absent and latitude 200 the outcome is
    [MissingParameter]. *)
Theorem validation_order {FA : FloatArith} (db : database)
  (latitude longitude : option float) (radius : option Z) :
  fired (get_restaurants_statistics db latitude longitude radius) =
  validation_contract latitude longitude radius
  /\ fired (get_restaurants_statistics db (Some (of_int 200)) None radius) =
     MissingParameter.
Proof.
  split; [| reflexivity].
  destruct latitude as [la |]; [| reflexivity].
  destruct longitude as [lo |]; [| reflexivity].
  destruct radius as [ra |]; [| reflexivity].
  unfold validation_contract, all_present.
  destruct (in_range (-90) 90 la) eqn:Hla.
  - destruct (in_range (-180) 180 lo) eqn:Hlo.
    + destruct (0 <? ra)%Z eqn:Hra.
      * apply Z.ltb_lt in Hra.
        rewrite statistics_success_path by (repeat split; assumption).
        destruct (inside_circle la lo ra (select_rating_lat_lng db))
          as [filtered | e] eqn:Hf; simpl.
        -- apply fired_aggregate.
        -- destruct (inside_circle_raises _ _ _ _ _ Hf) as [-> _].
           reflexivity.
      * apply Z.ltb_ge in Hra. unfold get_restaurants_statistics.
        unfold in_range in Hla, Hlo. rewrite Hla, Hlo. simpl negb. cbv iota.
        replace (ra <=? 0)%Z with true by (symmetry; apply Z.leb_le; lia).
        reflexivity.
    + unfold get_restaurants_statistics.
      unfold in_range in Hla, Hlo. rewrite Hla, Hlo. reflexivity.
  - unfold get_restaurants_statistics.
    unfold in_range in Hla. rewrite Hla. reflexivity.
Qed.

(** ** Order independence *)

Lemma fold_right_add_perm (xs ys : list Z) :
  Permutation xs ys -> fold_right Z.add 0%Z xs = fold_right Z.add 0%Z ys.
Proof.
  induction 1 as [| x xs ys _ IH | x y xs | xs ys zs _ IH1 _ IH2]; simpl.
  - reflexivity.
  - rewrite IH. reflexivity.
  - lia.
  - rewrite IH1. exact IH2.
Qed.

Lemma py_sum_perm (xs ys : list Z) :
  Permutation xs ys -> py_sum xs = py_sum ys.
Proof.
  intros Hperm. rewrite !py_sum_fold_right. apply fold_right_add_perm, Hperm.
Qed.

Lemma variance_perm (xs ys : list Z) :
  Permutation xs ys ->
  statistics.variance_num xs = statistics.variance_num ys /\
  statistics.variance_den xs = statistics.variance_den ys.
Proof.
  intros Hperm. unfold statistics.variance_num, statistics.variance_den.
  cbv zeta.
  rewrite (py_sum_perm xs ys Hperm), (Permutation_length Hperm).
  rewrite (py_sum_perm (map (fun x => x * x)%Z xs)
                       (map (fun x => x * x)%Z ys))
    by (apply Permutation_map, Hperm).
  split; reflexivity.
Qed.

Lemma aggregate_perm {FA : FloatArith} (filtered filtered' : list row) :
  Permutation filtered filtered' -> aggregate filtered = aggregate filtered'.
Proof.
  intros Hperm. unfold aggregate, sample_std. cbv zeta.
  assert (Hxs : Permutation (map row0 filtered) (map row0 filtered'))
    by (apply Permutation_map, Hperm).
  destruct (variance_perm _ _ Hxs) as [-> ->].
  rewrite (fold_right_add_perm _ _ Hxs), (Permutation_length Hxs).
  reflexivity.
Qed.

(** C9: for every sequence of stored records and every permutation of it,
    the statistics handler gives the same answer on the same request; when
    it answers with statistics, count, avg and std are identical. *)
Theorem statistics_order_independent {FA : FloatArith} (db db' : database)
  (latitude longitude : option float) (radius : option Z) :
  Permutation db db' ->
  get_restaurants_statistics db latitude longitude radius =
  get_restaurants_statistics db' latitude longitude radius.
Proof.
  intros Hperm.
  destruct latitude as [la |]; [| reflexivity].
  destruct longitude as [lo |]; [| reflexivity].
  destruct radius as [ra |]; [| reflexivity].
  destruct (in_range (-90) 90 la) eqn:Hla;
    [| unfold get_restaurants_statistics; unfold in_range in Hla;
       rewrite Hla; reflexivity].
  destruct (in_range (-180) 180 lo) eqn:Hlo;
    [| unfold get_restaurants_statistics; unfold in_range in Hla, Hlo;
       rewrite Hla, Hlo; reflexivity].
  destruct (ra <=? 0)%Z eqn:Hra;
    [unfold get_restaurants_statistics; unfold in_range in Hla, Hlo;
     rewrite Hla, Hlo, Hra; reflexivity |].
  apply Z.leb_gt in Hra.
  rewrite !statistics_success_path by (repeat split; assumption).
  assert (Hrows : Permutation (select_rating_lat_lng db)
                              (select_rating_lat_lng db'))
    by (apply Permutation_map, Hperm).
  destruct (inside_circle_perm la lo ra _ _ Hrows)
    as [[-> ->] | (f & f' & -> & -> & Hp)]; simpl; [reflexivity |].
  apply aggregate_perm, Hp.
Qed.

(** ** The filtered set *)

(** C2: on a valid statistics request, when the distance of every stored
    row is computed, the handler's answer is the aggregation of the
    filtered rows, and the filtered rows are exactly the stored rows whose
    computed distance from the query point is at most the radius: the rows
    left out are all beyond it, and a stored row whose distance equals the
    radius is kept.  Otherwise some stored row makes [haversine_distance]
    raise [ValueError], and so does the handler. *)
Theorem filtered_set_exact {FA : FloatArith} (db : database)
  (latitude longitude : float) (radius : Z) :
  valid_request latitude longitude radius ->
  let rows := select_rating_lat_lng db in
  match inside_circle latitude longitude radius rows with
  | Return filtered =>
    get_restaurants_statistics db
      (Some latitude) (Some longitude) (Some radius) = aggregate filtered
    /\ (forall r, In r filtered <->
                  In r rows /\ within latitude longitude radius r)
    /\ (exists outside,
           Permutation rows (filtered ++ outside) /\
           Forall (beyond latitude longitude radius) outside)
    /\ (forall r d,
           In r rows ->
           haversine_distance latitude longitude (row1 r) (row2 r) =
           Return d ->
           float_le_int d radius = true -> int_le_float radius d = true ->
           In r filtered)
  | Raise e =>
    e = ValueError
    /\ get_restaurants_statistics db
         (Some latitude) (Some longitude) (Some radius) = Raise ValueError
    /\ (exists r, In r rows /\
                  haversine_distance latitude longitude (row1 r) (row2 r) =
                  Raise ValueError)
  end.
Proof.
  intros Hvalid rows.
  pose proof (statistics_success_path db latitude longitude radius Hvalid)
    as Hpath. fold rows in Hpath.
  destruct (inside_circle latitude longitude radius rows)
    as [filtered | e] eqn:Hf; simpl in Hpath.
  - split; [exact Hpath |]. split; [| split].
    + intros r. apply inside_circle_In. exact Hf.
    + apply inside_circle_split. exact Hf.
    + intros r d Hin Hd Hle _.
      apply (inside_circle_In _ _ _ _ _ r Hf). split; [exact Hin |].
      exists d. split; assumption.
  - destruct (inside_circle_raises _ _ _ _ _ Hf) as [-> Hrow].
    split; [reflexivity |]. split; [exact Hpath | exact Hrow].
Qed.

(** When the comprehension ends with the empty list, the handler raises
    [HTTPException] with status 404 and returns no statistics. *)
Lemma empty_list_not_found {FA : FloatArith} (db : database)
  (latitude longitude : float) (radius : Z) :
  valid_request latitude longitude radius ->
  inside_circle latitude longitude radius (select_rating_lat_lng db) =
  Return [] ->
  let response :=
    get_restaurants_statistics db (Some latitude) (Some longitude) (Some radius)
  in
  response = Raise (HTTPException 404 "Restaurants not found")
  /\ status_of response = 404%Z
  /\ (forall b, response <> Return b).
Proof.
  intros Hvalid Hempty response.
  assert (Hr : response = Raise (HTTPException 404 "Restaurants not found")).
  { subst response. rewrite statistics_success_path by exact Hvalid.
    rewrite Hempty. reflexivity. }
  rewrite Hr. repeat split. intros b Hb. discriminate Hb.
Qed.

(** C4: on a valid statistics request whose filtered set holds exactly one
    record, [statistics.stdev] raises [StatisticsError]; the handler does
    not catch it, so the request fails with an unhandled exception
    (status 500) and neither an [HTTPException] nor a body is produced. *)
Theorem single_record_unhandled {FA : FloatArith} (db : database)
  (latitude longitude : float) (radius : Z) (filtered : list row) :
  valid_request latitude longitude radius ->
  inside_circle latitude longitude radius (select_rating_lat_lng db) =
  Return filtered ->
  length filtered = 1%nat ->
  let response :=
    get_restaurants_statistics db (Some latitude) (Some longitude) (Some radius)
  in
  response = Raise StatisticsError /\ status_of response = 500%Z.
Proof.
  intros Hvalid Hf Hone response.
  assert (Hr : response = Raise StatisticsError).
  { subst response. rewrite statistics_success_path by exact Hvalid.
    rewrite Hf. simpl. unfold aggregate. cbv zeta.
    rewrite length_map, Hone. reflexivity. }
  rewrite Hr. split; reflexivity.
Qed.

(** ** What the statistics handler returns *)

(** X7: the statistics handler returns a body exactly when all three
    parameters are present and pass validation, the distance of every
    stored row is computed and at least two stored rows lie within the
    radius; the body then holds the keys count, avg and std, with count the
    number of rows within the radius, so at least 2. *)
Theorem statistics_returns_iff {FA : FloatArith} (db : database)
  (latitude longitude : option float) (radius : option Z) :
  ((exists b,
       get_restaurants_statistics db latitude longitude radius = Return b)
   <->
   (exists la lo ra filtered,
       latitude = Some la /\ longitude = Some lo /\ radius = Some ra /\
       valid_request la lo ra /\
       inside_circle la lo ra (select_rating_lat_lng db) = Return filtered /\
       (2 <= length filtered)%nat))
  /\ (forall b,
        get_restaurants_statistics db latitude longitude radius = Return b ->
        exists count avg std,
          b = Json [("count", Int count); ("avg", Float avg);
                    ("std", Float std)]%string
          /\ (2 <= count)%Z).
Proof.
  split; [split |].
  - intros [b Hret].
    destruct (statistics_return_inv _ _ _ _ _ Hret)
      as (la & lo & ra & f & H1 & H2 & H3 & H4 & H5 & H6 & _).
    exists la, lo, ra, f. tauto.
  - intros (la & lo & ra & f & -> & -> & -> & Hvalid & Hf & Hlen).
    eexists. apply statistics_two_or_more; eassumption.
  - intros b Hret.
    destruct (statistics_return_inv _ _ _ _ _ Hret)
      as (la & lo & ra & f & _ & _ & _ & _ & _ & Hlen & ->).
    do 3 eexists. split; [reflexivity | lia].
Qed.

(** ** Radius and distant records *)

Lemma inside_circle_radius_mono {FA : FloatArith} {CL : CompareLaws FA}
  (latitude longitude : float) (radius radius' : Z)
  (rows filtered : list row) :
  (radius <= radius')%Z ->
  inside_circle latitude longitude radius rows = Return filtered ->
  exists filtered',
    inside_circle latitude longitude radius' rows = Return filtered' /\
    (length filtered <= length filtered')%nat.
Proof.
  intros Hle. revert filtered.
  induction rows as [| r rows IH]; intros filtered H.
  - injection H as <-. exists []. split; [reflexivity | simpl; lia].
  - rewrite inside_circle_cons in H.
    apply bind_return_inv in H. destruct H as (d & Hd & H).
    apply bind_return_inv in H. destruct H as (rest & Hrest & H).
    injection H as <-. destruct (IH rest Hrest) as (rest' & Hrest' & Hlen).
    rewrite inside_circle_cons, Hd, Hrest'. cbn [bind].
    eexists. split; [reflexivity |].
    destruct (float_le_int d radius) eqn:H1.
    + rewrite (float_le_int_mono d radius radius' H1 Hle). simpl. lia.
    + destruct (float_le_int d radius'); simpl; lia.
Qed.

(** X10: enlarging the radius never loses an answer: when the handler
    returns statistics for a radius, it returns statistics for every larger
    radius, over at least as many records. *)
Theorem statistics_radius_monotone {FA : FloatArith} {CL : CompareLaws FA}
  (db : database) (latitude longitude : option float) (radius radius' : Z)
  (count : Z) (avg std : float) :
  (radius <= radius')%Z ->
  get_restaurants_statistics db latitude longitude (Some radius) =
  Return (Json [("count", Int count); ("avg", Float avg);
                ("std", Float std)]%string) ->
  exists count' avg' std',
    get_restaurants_statistics db latitude longitude (Some radius') =
    Return (Json [("count", Int count'); ("avg", Float avg');
                  ("std", Float std')]%string)
    /\ (count <= count')%Z.
Proof.
  intros Hle Hret.
  destruct (statistics_return_inv _ _ _ _ _ Hret)
    as (la & lo & ra & f & -> & -> & Hra & Hvalid & Hf & Hlen & Hb).
  injection Hra as <-. injection Hb as -> _ _.
  destruct (inside_circle_radius_mono la lo radius radius' _ f Hle Hf)
    as (f' & Hf' & Hmono).
  assert (Hvalid' : valid_request la lo radius').
  { unfold valid_request in *. intuition lia. }
  do 3 eexists. split.
  - apply (statistics_two_or_more db la lo radius' f' Hvalid' Hf'). lia.
  - lia.
Qed.

Lemma statistics_same_inside {FA : FloatArith} (db db' : database)
  (latitude longitude : float) (radius : Z) :
  inside_circle latitude longitude radius (select_rating_lat_lng db) =
  inside_circle latitude longitude radius (select_rating_lat_lng db') ->
  get_restaurants_statistics db (Some latitude) (Some longitude) (Some radius) =
  get_restaurants_statistics db' (Some latitude) (Some longitude) (Some radius).
Proof.
  intros Hsame. unfold get_restaurants_statistics.
  cbv zeta. rewrite Hsame. reflexivity.
Qed.

Lemma inside_circle_skip_far {FA : FloatArith}
  (latitude longitude : float) (radius : Z)
  (db1 db2 : database) (far : Restaurant) :
  beyond latitude longitude radius (rating far, lat far, lng far) ->
  inside_circle latitude longitude radius
    (select_rating_lat_lng (db1 ++ far :: db2)) =
  inside_circle latitude longitude radius (select_rating_lat_lng (db1 ++ db2)).
Proof.
  intros (d & Hd & Hle). unfold select_rating_lat_lng.
  rewrite !map_app, !inside_circle_app. simpl map.
  rewrite inside_circle_cons, Hd. cbn [bind].
  destruct (inside_circle latitude longitude radius (map _ db1)); cbn [bind];
    [| reflexivity].
  destruct (inside_circle latitude longitude radius (map _ db2)); cbn [bind];
    [| reflexivity].
  rewrite Hle. reflexivity.
Qed.

(** X11: a stored record whose distance from the query point is computed
    and exceeds the radius has no influence on the answer: the handler
    answers the same with and without it, wherever it stands in the
    table. *)
Theorem statistics_ignores_distant_record {FA : FloatArith}
  (db1 db2 : database) (far : Restaurant)
  (latitude longitude : float) (radius : Z) :
  beyond latitude longitude radius (rating far, lat far, lng far) ->
  get_restaurants_statistics (db1 ++ far :: db2)
    (Some latitude) (Some longitude) (Some radius) =
  get_restaurants_statistics (db1 ++ db2)
    (Some latitude) (Some longitude) (Some radius).
Proof.
  intros Hfar. apply statistics_same_inside.
  apply inside_circle_skip_far. exact Hfar.
Qed.

(** ** The distance from a point to itself *)

Section ZeroDistance.

Context {FA : FloatArith} {ZL : ZeroLaws FA}.

Lemma is_zero_finite (x : float) : is_zero x = true -> finite x.
Proof.
  unfold is_zero. intros H. apply andb_true_iff in H.
  exists 0%Z, 0%Z. tauto.
Qed.

Lemma is_zero_le_zero (x : float) : is_zero x = true -> float_le_int x 0 = true.
Proof. unfold is_zero. intros H. apply andb_true_iff in H. tauto. Qed.

Lemma finite_of_int (n : Z) : (Z.abs n <= 2 ^ 53)%Z -> finite (of_int n).
Proof.
  intros Hn. exists n, n.
  rewrite of_int_ge, of_int_le by exact Hn.
  split; apply Z.leb_refl.
Qed.

Lemma of_int_not_zero (n : Z) :
  (Z.abs n <= 2 ^ 53)%Z -> n <> 0%Z -> is_zero (of_int n) = false.
Proof.
  intros Hn Hne. unfold is_zero.
  rewrite of_int_ge, of_int_le by exact Hn.
  destruct (n <=? 0)%Z eqn:H1; [| reflexivity].
  destruct (0 <=? n)%Z eqn:H2; [| reflexivity].
  apply Z.leb_le in H1. apply Z.leb_le in H2. lia.
Qed.

Lemma math_sin_zero (x : float) :
  is_zero x = true ->
  math.sin x = Return (c_sin x) /\ is_zero (c_sin x) = true.
Proof.
  intros Hx. unfold math.sin.
  rewrite (finite_not_inf x (is_zero_finite x Hx)).
  split; [reflexivity | apply c_sin_zero, Hx].
Qed.

Lemma math_cos_finite (x : float) :
  finite x -> math.cos x = Return (c_cos x) /\ finite (c_cos x).
Proof.
  intros Hx. unfold math.cos. rewrite (finite_not_inf x Hx).
  split; [reflexivity | apply c_cos_finite, Hx].
Qed.

Lemma half_angle_zero (x : float) :
  finite x ->
  is_zero (fdiv (math.radians (fsub x x)) (of_int 2)) = true.
Proof.
  intros Hx. unfold math.radians.
  apply fdiv_zero_l.
  - apply fmul_zero_l; [apply fsub_diag, Hx | apply deg_to_rad_finite].
  - apply finite_of_int. simpl. lia.
  - apply of_int_not_zero; [simpl; lia | discriminate].
Qed.

(** The distance from a finite point to itself is computed and is zero. *)
Lemma haversine_distance_same (lat lon : float) :
  finite lat -> finite lon ->
  exists d, haversine_distance lat lon lat lon = Return d /\
            is_zero d = true.
Proof.
  intros Hlat Hlon. unfold haversine_distance. cbv zeta.
  destruct (math_sin_zero _ (half_angle_zero lat Hlat)) as [-> Hs1].
  destruct (math_sin_zero _ (half_angle_zero lon Hlon)) as [-> Hs2].
  destruct (math_cos_finite _ (radians_finite lat Hlat)) as [Hc Hcf].
  unfold math.radians in *. rewrite Hc. cbn [bind].
  set (s1 := c_sin (fdiv (fmul (fsub lat lat) deg_to_rad) (of_int 2))) in *.
  set (s2 := c_sin (fdiv (fmul (fsub lon lon) deg_to_rad) (of_int 2))) in *.
  set (c1 := c_cos (fmul lat deg_to_rad)) in *.
  assert (Ha : is_zero (fadd (fmul s1 s1) (fmul (fmul (fmul s2 s2) c1) c1))
               = true).
  { apply fadd_zero.
    - apply fmul_zero_l; [exact Hs1 | apply is_zero_finite, Hs1].
    - apply fmul_zero_l; [| exact Hcf].
      apply fmul_zero_l; [| exact Hcf].
      apply fmul_zero_l; [exact Hs2 | apply is_zero_finite, Hs2]. }
  set (a := fadd _ _) in *.
  unfold math.sqrt. rewrite (zero_not_negative a Ha). cbn [bind].
  rewrite (fsub_zero_r a Ha).
  rewrite of_int_lt by (simpl; lia). simpl Z.ltb. cbn [bind].
  rewrite c_sqrt_one. unfold math.atan2.
  eexists. split; [reflexivity |].
  apply fmul_zero_l; [| apply finite_of_int; simpl; lia].
  apply fmul_zero_r; [apply finite_of_int; simpl; lia |].
  apply fmul_zero_r; [apply finite_of_int; simpl; lia |].
  apply c_atan2_zero_one, c_sqrt_zero, Ha.
Qed.

End ZeroDistance.

(** For a latitude and a longitude that are finite, the distance from the
    point to itself is computed, without [ValueError], and is zero. *)
Lemma zero_distance_under_laws {FA : FloatArith} {ZL : ZeroLaws FA}
  (lat lon : float) :
  finite lat -> finite lon ->
  exists d, haversine_distance lat lon lat lon = Return d /\
            float_le_int d 0 = true /\ int_le_float 0 d = true.
Proof.
  intros Hlat Hlon.
  destruct (haversine_distance_same lat lon Hlat Hlon) as (d & Hd & Hz).
  exists d. split; [exact Hd |].
  unfold is_zero in Hz. apply andb_true_iff in Hz. exact Hz.
Qed.

(** ** Three records at the query center *)

Lemma in_range_finite {FA : FloatArith} (lo hi : Z) (x : float) :
  in_range lo hi x = true -> finite x.
Proof.
  unfold in_range. intros H. apply andb_true_iff in H.
  exists lo, hi. exact H.
Qed.

Lemma inside_circle_at_center {FA : FloatArith}
  {CL : CompareLaws FA} {ZL : ZeroLaws FA}
  (latitude longitude : float) (radius : Z) (stars : list Z) :
  valid_request latitude longitude radius ->
  inside_circle latitude longitude radius
    (map (fun k => ((k, latitude, longitude) : row)) stars) =
  Return (map (fun k => ((k, latitude, longitude) : row)) stars).
Proof.
  intros (Hlat & Hlon & Hrad).
  destruct (haversine_distance_same latitude longitude
              (in_range_finite _ _ _ Hlat) (in_range_finite _ _ _ Hlon))
    as (d & Hd & Hz).
  assert (Hle : float_le_int d radius = true).
  { apply (float_le_int_mono d 0 radius); [apply is_zero_le_zero, Hz | lia]. }
  induction stars as [| k stars IH]; [reflexivity |].
  simpl map. rewrite inside_circle_cons. unfold row1, row2. simpl fst.
  simpl snd. rewrite Hd, IH. cbn [bind]. rewrite Hle. reflexivity.
Qed.

(** Three records located at the query center with ratings 1, 3 and 5 and
    any valid radius give count 3, avg 3.0 and std 2.0. *)
Lemma three_at_center_under_laws {FA : FloatArith}
  {CL : CompareLaws FA} {ZL : ZeroLaws FA}
  (r1 r2 r3 : Restaurant) (latitude longitude : float) (radius : Z) :
  valid_request latitude longitude radius ->
  rated_at r1 1 latitude longitude ->
  rated_at r2 3 latitude longitude ->
  rated_at r3 5 latitude longitude ->
  get_restaurants_statistics [r1; r2; r3]
    (Some latitude) (Some longitude) (Some radius) =
  Return (Json [("count", Int 3); ("avg", Float (of_int 3));
                ("std", Float (of_int 2))]%string).
Proof.
  intros Hvalid (Hr1 & Hla1 & Hlo1) (Hr2 & Hla2 & Hlo2) (Hr3 & Hla3 & Hlo3).
  pose proof (inside_circle_at_center latitude longitude radius [1; 3; 5]%Z
                Hvalid) as Hin.
  rewrite (statistics_two_or_more [r1; r2; r3] latitude longitude radius
             (map (fun k => ((k, latitude, longitude) : row)) [1; 3; 5]%Z)
             Hvalid).
  - simpl map. simpl length. unfold row0. simpl fst.
    unfold sample_std.
    change (fold_right Z.add 0%Z [1; 3; 5]%Z) with (3 * 3)%Z.
    change (statistics.variance_num [1; 3; 5]%Z) with (2 * 2 * 6)%Z.
    change (statistics.variance_den [1; 3; 5]%Z) with 6%Z.
    rewrite int_truediv_exact by (simpl; lia).
    rewrite float_sqrt_of_frac_square by (simpl; lia).
    reflexivity.
  - unfold select_rating_lat_lng. simpl map.
    rewrite Hr1, Hr2, Hr3, Hla1, Hla2, Hla3, Hlo1, Hlo2, Hlo3. exact Hin.
  - simpl. lia.
Qed.

(** ** Equal ratings *)

Lemma fold_right_add_constant (k : Z) (xs : list Z) :
  Forall (fun x => x = k) xs ->
  fold_right Z.add 0%Z xs = (k * Z.of_nat (length xs))%Z.
Proof.
  induction 1 as [| x xs Hx _ IH]; [simpl; lia |].
  cbn [length fold_right]. rewrite IH, Hx. lia.
Qed.

Lemma fold_right_squares_constant (k : Z) (xs : list Z) :
  Forall (fun x => x = k) xs ->
  fold_right Z.add 0%Z (map (fun x => x * x)%Z xs) =
  (k * k * Z.of_nat (length xs))%Z.
Proof.
  induction 1 as [| x xs Hx _ IH]; [simpl; lia |].
  cbn [length fold_right map]. rewrite IH, Hx. lia.
Qed.

(** When at least two records lie within the radius of a valid request and
    all of them have the same rating [k], of magnitude at most [2^53], the
    handler returns [k] as the average and 0 as the standard deviation. *)
Lemma equal_ratings_under_laws {FA : FloatArith} {ZL : ZeroLaws FA}
  (k : Z) (db : database) (latitude longitude : float) (radius : Z)
  (filtered : list row) :
  valid_request latitude longitude radius ->
  inside_circle latitude longitude radius (select_rating_lat_lng db) =
  Return filtered ->
  (2 <= length filtered)%nat ->
  Forall (fun rw => row0 rw = k) filtered ->
  (Z.abs k <= 2 ^ 53)%Z ->
  get_restaurants_statistics db (Some latitude) (Some longitude) (Some radius) =
  Return (Json [("count", Int (Z.of_nat (length filtered)));
                ("avg", Float (of_int k)); ("std", Float (of_int 0))]%string).
Proof.
  intros Hvalid Hf Hlen Hall Hk.
  rewrite (statistics_two_or_more db latitude longitude radius filtered)
    by assumption.
  assert (Hks : Forall (fun x => x = k) (map row0 filtered)).
  { apply Forall_forall. intros x Hx. apply in_map_iff in Hx.
    destruct Hx as (rw & <- & Hin).
    rewrite Forall_forall in Hall. exact (Hall rw Hin). }
  set (xs := map row0 filtered) in *.
  assert (Hn : length xs = length filtered) by (apply length_map).
  assert (Havg : int_truediv (fold_right Z.add 0%Z xs)
                             (Z.of_nat (length filtered)) = of_int k).
  { rewrite (fold_right_add_constant k xs Hks), Hn.
    apply int_truediv_exact; [lia | exact Hk]. }
  assert (Hstd : sample_std xs = of_int 0).
  { unfold sample_std, statistics.variance_num, statistics.variance_den.
    cbv zeta. rewrite !py_sum_fold_right.
    rewrite (fold_right_add_constant k xs Hks),
      (fold_right_squares_constant k xs Hks), Hn.
    set (n := Z.of_nat (length filtered)).
    replace (n * (k * k * n) - k * n * (k * n))%Z
      with (0 * 0 * (n * (n - 1)))%Z by ring.
    apply float_sqrt_of_frac_square; [simpl; lia | subst n; nia]. }
  rewrite Havg, Hstd. reflexivity.
Qed.

(** ** Symmetry *)

Section Symmetry.

Context {FA : FloatArith} {SL : SignLaws FA}.

(** Exchanging the two points changes at most the sign of a half
    difference. *)
Lemma half_angle_flip (x y : float) :
  fdiv (math.radians (fsub x y)) (of_int 2) =
  fdiv (math.radians (fsub y x)) (of_int 2)
  \/ fdiv (math.radians (fsub x y)) (of_int 2) =
     fneg (fdiv (math.radians (fsub y x)) (of_int 2)).
Proof.
  destruct (classic (y = x)) as [-> | Hne]; [left; reflexivity |].
  right. unfold math.radians.
  rewrite (fsub_antisym y x Hne), fmul_neg_l, fdiv_neg_l. reflexivity.
Qed.

Lemma sin_squared_flip (w w' : float) :
  w' = w \/ w' = fneg w ->
  is_inf w' = is_inf w /\
  fmul (c_sin w') (c_sin w') = fmul (c_sin w) (c_sin w).
Proof.
  intros [-> | ->]; [split; reflexivity |].
  rewrite is_inf_neg, c_sin_odd, fmul_neg_neg. split; reflexivity.
Qed.

End Symmetry.

(** C8, as amended: the distance from A to B equals the distance from B to
    A when the two points have the same latitude and, more generally, when
    the product of the squared sine of the half difference of longitude with
    the two cosines of latitude is the same float in both orders of the
    cosines. *)
Theorem haversine_symmetric_when_products_agree {FA : FloatArith}
  {SL : SignLaws FA} (latA lonA latB lonB : float) :
  let s := c_sin (fdiv (math.radians (fsub lonB lonA)) (of_int 2)) in
  let cA := c_cos (math.radians latA) in
  let cB := c_cos (math.radians latB) in
  latA = latB \/
  fmul (fmul (fmul s s) cA) cB = fmul (fmul (fmul s s) cB) cA ->
  haversine_distance latA lonA latB lonB =
  haversine_distance latB lonB latA lonA.
Proof.
  intros s cA cB Hprod.
  assert (Hp : fmul (fmul (fmul s s) cA) cB = fmul (fmul (fmul s s) cB) cA).
  { destruct Hprod as [Heq | H]; [| exact H].
    subst cA cB. rewrite Heq. reflexivity. }
  destruct (sin_squared_flip _ _ (half_angle_flip latA latB)) as [Hi1 Hs1].
  destruct (sin_squared_flip _ _ (half_angle_flip lonA lonB)) as [Hi2 Hs2].
  unfold haversine_distance, math.sin, math.cos. cbv zeta.
  rewrite Hi1, Hi2.
  destruct (is_inf (fdiv (math.radians (fsub latB latA)) (of_int 2)));
    cbn [bind]; [reflexivity |].
  destruct (is_inf (fdiv (math.radians (fsub lonB lonA)) (of_int 2)));
    cbn [bind]; [reflexivity |].
  rewrite Hs1, Hs2. fold s.
  destruct (is_inf (math.radians latA)), (is_inf (math.radians latB));
    cbn [bind]; try reflexivity.
  fold cA cB. rewrite Hp. reflexivity.
Qed.

(** ** The two arithmetics and the laws *)

Lemma exact_le_int (x : R) (n : Z) :
  @float_le_int exact_arith x n = true <-> x <= IZR n.
Proof.
  cbv [float_le_int exact_arith].
  destruct (Rle_dec x (IZR n)); split; intros H;
    try reflexivity; try assumption; try discriminate; contradiction.
Qed.

Lemma exact_int_le (n : Z) (x : R) :
  @int_le_float exact_arith n x = true <-> IZR n <= x.
Proof.
  cbv [int_le_float exact_arith].
  destruct (Rle_dec (IZR n) x); split; intros H;
    try reflexivity; try assumption; try discriminate; contradiction.
Qed.

Lemma exact_lt_int (x : R) (n : Z) :
  @float_lt_int exact_arith x n = true <-> x < IZR n.
Proof.
  cbv [float_lt_int exact_arith].
  destruct (Rlt_dec x (IZR n)); split; intros H;
    try reflexivity; try assumption; try discriminate; contradiction.
Qed.

Lemma exact_is_zero (x : R) : @is_zero exact_arith x = true <-> x = 0.
Proof.
  unfold is_zero. rewrite andb_true_iff, exact_le_int, exact_int_le.
  split; [intros [H1 H2]; lra | intros ->; lra].
Qed.

(** Every real number lies between two integers. *)
Lemma exact_finite (x : R) : @finite exact_arith x.
Proof.
  exists (up x - 1)%Z, (up x).
  destruct (archimed x) as [H1 H2].
  rewrite exact_le_int, exact_int_le, minus_IZR. lra.
Qed.

Ltac exact_unfold :=
  cbv [float of_int fadd fsub fmul fdiv fneg c_sin c_sqrt int_truediv
       float_sqrt_of_frac exact_arith].

Lemma bool_eq_iff (b c : bool) : (b = true <-> c = true) -> b = c.
Proof. destruct b, c; intros [H1 H2]; auto; symmetry; auto. Qed.

Lemma exact_compare_laws : CompareLaws exact_arith.
Proof.
  constructor. intros x n m Hx Hnm.
  apply exact_le_int. apply exact_le_int in Hx.
  apply IZR_le in Hnm. lra.
Qed.

Lemma real_atan2_0_1 : real_atan2 0 1 = 0.
Proof.
  unfold real_atan2. destruct (Rlt_dec 0 1) as [_ | H]; [| lra].
  replace (0 / 1) with 0 by field. exact atan_0.
Qed.

Lemma exact_zero_laws : ZeroLaws exact_arith.
Proof.
  constructor.
  - intros n m _. apply bool_eq_iff. rewrite exact_le_int, Z.leb_le.
    split; [apply le_IZR | apply IZR_le].
  - intros n m _. apply bool_eq_iff. rewrite exact_int_le, Z.leb_le.
    split; [apply le_IZR | apply IZR_le].
  - intros n m _. apply bool_eq_iff. rewrite exact_lt_int, Z.ltb_lt.
    split; [apply lt_IZR | apply IZR_lt].
  - intros x Hx. apply exact_is_zero in Hx. subst x.
    apply not_true_iff_false. rewrite exact_lt_int. lra.
  - reflexivity.
  - apply exact_finite.
  - intros x _. apply exact_finite.
  - intros x _. apply exact_is_zero. exact_unfold. ring.
  - intros y Hy. apply exact_is_zero in Hy. subst y.
    exact_unfold. ring.
  - intros x y Hx Hy. apply exact_is_zero in Hx, Hy. subst x y.
    apply exact_is_zero. exact_unfold. ring.
  - intros x y Hx _. apply exact_is_zero in Hx. subst x.
    apply exact_is_zero. exact_unfold. ring.
  - intros x y _ Hy. apply exact_is_zero in Hy. subst y.
    apply exact_is_zero. exact_unfold. ring.
  - intros x y Hx _ Hy. apply exact_is_zero in Hx. subst x.
    apply exact_is_zero. exact_unfold. unfold Rdiv. ring.
  - intros x Hx. apply exact_is_zero in Hx. subst x.
    apply exact_is_zero. exact sqrt_0.
  - exact sqrt_1.
  - intros x Hx. apply exact_is_zero in Hx. subst x.
    apply exact_is_zero. exact sin_0.
  - intros x _. apply exact_finite.
  - intros y Hy. apply exact_is_zero in Hy. subst y.
    apply exact_is_zero. exact real_atan2_0_1.
  - intros q b Hb _. exact_unfold.
    rewrite mult_IZR. field. apply not_0_IZR. exact Hb.
  - intros k d Hk Hd. exact_unfold.
    rewrite !mult_IZR.
    replace (IZR k * IZR k * IZR d / IZR d) with (IZR k * IZR k).
    + apply sqrt_square. apply IZR_le. lia.
    + field. apply not_0_IZR. lia.
Qed.

Lemma exact_sign_laws : SignLaws exact_arith.
Proof.
  constructor.
  - intros x y _. exact_unfold. ring.
  - intros x y. exact_unfold. ring.
  - intros x y. exact_unfold. ring.
  - intros x y. exact_unfold. unfold Rdiv. ring.
  - intros x. exact_unfold. apply sin_neg.
  - reflexivity.
Qed.

(** The exact comparison of a binary64 value with an integer is monotone
    in the integer. *)
Lemma sf_le_int_mono (f : spec_float) (n m : Z) :
  sf_le_int f n = true -> (n <= m)%Z -> sf_le_int f m = true.
Proof.
  intros H Hnm. destruct f as [s | s | | s mant e];
    cbn [sf_le_int] in *; try assumption.
  - apply Z.leb_le. apply Z.leb_le in H. lia.
  - destruct (0 <=? e)%Z eqn:He.
    + apply Z.leb_le. apply Z.leb_le in H. lia.
    + apply Z.leb_le. apply Z.leb_le in H.
      apply Z.leb_gt in He.
      assert (Hp : (0 < 2 ^ (- e))%Z) by (apply Z.pow_pos_nonneg; lia).
      nia.
Qed.

Lemma ieee_compare_laws (libm : Libm) : CompareLaws (ieee libm).
Proof.
  constructor. intros x n m. cbv [float_le_int ieee]. apply sf_le_int_mono.
Qed.

(** ** The values of the C library *)

Lemma lookup_agrees (table : list (PrimFloat.float * PrimFloat.float))
  (f : PrimFloat.float -> PrimFloat.float) :
  Forall (fun p => f (fst p) = snd p) table ->
  forall x, lookup table f x = f x.
Proof.
  induction 1 as [| [a v] table Hav _ IH]; intros x; cbn [lookup];
    [reflexivity |].
  destruct (PrimFloat.Leibniz.eqb x a) eqn:E; [| apply IH].
  apply FloatAxioms.Leibniz.eqb_spec in E. subst x.
  symmetry. exact Hav.
Qed.

Lemma lookup2_agrees
  (table : list (PrimFloat.float * PrimFloat.float * PrimFloat.float))
  (f : PrimFloat.float -> PrimFloat.float -> PrimFloat.float) :
  Forall (fun p => f (fst (fst p)) (snd (fst p)) = snd p) table ->
  forall y x, lookup2 table f y x = f y x.
Proof.
  induction 1 as [| [[b a] v] table Hbav _ IH]; intros y x; cbn [lookup2];
    [reflexivity |].
  destruct (PrimFloat.Leibniz.eqb y b) eqn:Ey; [| apply IH].
  destruct (PrimFloat.Leibniz.eqb x a) eqn:Ex; [| apply IH].
  apply FloatAxioms.Leibniz.eqb_spec in Ey, Ex. subst y x.
  symmetry. exact Hbav.
Qed.

(** A library that takes the values of glibc at the arguments of the tables
    is the library that reads them from the tables. *)
Lemma tabled_eq (libm : Libm) : glibc_values libm -> tabled libm = libm.
Proof.
  intros (Hsin & Hcos & Hatan2). destruct libm as [s c a].
  unfold tabled. cbn [libm_sin libm_cos libm_atan2] in *.
  assert (Es : lookup sin_values s = s)
    by (apply functional_extensionality; apply lookup_agrees, Hsin).
  assert (Ec : lookup cos_values c = c)
    by (apply functional_extensionality; apply lookup_agrees, Hcos).
  assert (Ea : lookup2 atan2_values a = a).
  { apply functional_extensionality. intros y.
    apply functional_extensionality. apply lookup2_agrees, Hatan2. }
  rewrite Es, Ec, Ea. reflexivity.
Qed.

Lemma table_libm_values : glibc_values table_libm.
Proof. repeat split; repeat constructor. Qed.

(** Evaluation in binary64 arithmetic over a library that takes the values
    of glibc: the values are read from the tables. *)
Ltac with_glibc_values H := rewrite <- (tabled_eq _ H).

(** ** Evaluations in binary64 arithmetic *)

Section Binary64.

Variable libm : Libm.
Hypothesis glibc : glibc_values libm.

Local Abbreviation b64 := (ieee libm).

Lemma valid_origin_1km : @valid_request b64 (of_int 0) (of_int 0) 1000.
Proof. repeat split. Qed.

Lemma haversine_origin_antipode :
  @haversine_distance b64 (of_int 0) (of_int 0) (of_int 0) (of_int 180) =
  Return 0x1.3167eecbc8011p+24%float.
Proof. with_glibc_values glibc. vm_compute. reflexivity. Qed.

Lemma haversine_8_136_raises :
  @haversine_distance b64 (of_int 8) (of_int (-136)) (of_int (-8)) (of_int 44)
  = Raise ValueError.
Proof. with_glibc_values glibc. vm_compute. reflexivity. Qed.

Lemma haversine_82_180_raises :
  @haversine_distance b64 (of_int (-82)) (of_int (-180)) (of_int 82) (of_int 0)
  = Raise ValueError.
Proof. with_glibc_values glibc. vm_compute. reflexivity. Qed.

Lemma haversine_10_20_same :
  @haversine_distance b64 (of_int 10) (of_int 20) (of_int 10) (of_int 20) =
  Return (of_int 0).
Proof. with_glibc_values glibc. vm_compute. reflexivity. Qed.

Lemma haversine_89_76 :
  @haversine_distance b64 (of_int (-89)) (of_int (-180))
    (of_int (-76)) (of_int (-114)) = Return 0x1.71d5b7ce931f9p+20%float.
Proof. with_glibc_values glibc. vm_compute. reflexivity. Qed.

Lemma haversine_76_89 :
  @haversine_distance b64 (of_int (-76)) (of_int (-114))
    (of_int (-89)) (of_int (-180)) = Return 0x1.71d5b7ce931f8p+20%float.
Proof. with_glibc_values glibc. vm_compute. reflexivity. Qed.

(** The distance from the origin to latitude 0.008993216059187308 on its
    meridian is computed as 1000.0 meters. *)
Lemma haversine_on_the_circle :
  @haversine_distance b64 (of_int 0) (of_int 0)
    0x1.26b0906e16d29p-7%float (of_int 0) =
  Return 0x1.f400000000000p+9%float.
Proof. with_glibc_values glibc. vm_compute. reflexivity. Qed.

Lemma inside_two_near_one_far :
  @inside_circle b64 (of_int 0) (of_int 0) 1000
    (select_rating_lat_lng db_two_near_one_far) =
  Return [(3%Z, of_int 0, of_int 0); (5%Z, of_int 0, of_int 0)].
Proof. with_glibc_values glibc. vm_compute. reflexivity. Qed.

Lemma inside_one_near_one_far :
  @inside_circle b64 (of_int 0) (of_int 0) 1000
    (select_rating_lat_lng db_one_near_one_far) =
  Return [(4%Z, of_int 0, of_int 0)].
Proof. with_glibc_values glibc. vm_compute. reflexivity. Qed.

Lemma inside_one_far :
  @inside_circle b64 (of_int 0) (of_int 0) 1000
    (select_rating_lat_lng db_one_far) = Return [].
Proof. with_glibc_values glibc. vm_compute. reflexivity. Qed.

(** So a radius of 1000 keeps the row at latitude 0.008993216059187308. *)
Lemma inside_on_the_circle :
  @inside_circle b64 (of_int 0) (of_int 0) 1000
    (select_rating_lat_lng (db_on_the_circle libm)) =
  Return (select_rating_lat_lng (db_on_the_circle libm)).
Proof. with_glibc_values glibc. vm_compute. reflexivity. Qed.

Lemma statistics_two_near_one_far :
  @get_restaurants_statistics b64 db_two_near_one_far
    (Some (of_int 0)) (Some (of_int 0)) (Some 1000%Z) =
  Return (Json [("count", Int 2);
                ("avg", @Float b64 0x1.0000000000000p+2%float);
                ("std", @Float b64 0x1.6a09e667f3bcdp+0%float)]%string).
Proof. with_glibc_values glibc. reflexivity. Qed.

(** Three records at latitude 10, longitude 20, rated 1, 3 and 5, and the
    query at that point with radius 500: count 3, avg 3.0, std 2.0. *)
Lemma statistics_three_at_center :
  @get_restaurants_statistics b64 db_three_at_center
    (Some (of_int 10)) (Some (of_int 20)) (Some 500%Z) =
  Return (Json [("count", Int 3); ("avg", @Float b64 (of_int 3));
                ("std", @Float b64 (of_int 2))]%string).
Proof. with_glibc_values glibc. reflexivity. Qed.

(** Two records rated 4 at the origin and one at its antipode: count 2,
    avg 4.0, std 0.0. *)
Lemma statistics_db_equal_ratings :
  @get_restaurants_statistics b64 db_equal_ratings
    (Some (of_int 0)) (Some (of_int 0)) (Some 1000%Z) =
  Return (Json [("count", Int 2); ("avg", @Float b64 (of_int 4));
                ("std", @Float b64 (of_int 0))]%string).
Proof. with_glibc_values glibc. reflexivity. Qed.

(** Two records rated [2^53 + 1] at the origin: the average is rounded to
    the float [2^53]. *)
Lemma statistics_large_ratings :
  @get_restaurants_statistics b64 db_large_ratings
    (Some (of_int 0)) (Some (of_int 0)) (Some 1000%Z) =
  Return (Json [("count", Int 2);
                ("avg", @Float b64 0x1.0000000000000p+53%float);
                ("std", @Float b64 (of_int 0))]%string).
Proof. with_glibc_values glibc. reflexivity. Qed.

(** The only record at the antipode of the query point: [ValueError]. *)
Lemma statistics_near_antipode :
  @get_restaurants_statistics b64 db_near_antipode
    (Some (of_int 8)) (Some (of_int (-136))) (Some 1000%Z) =
  Raise ValueError.
Proof. with_glibc_values glibc. reflexivity. Qed.

Lemma antipode_beyond_1km :
  @beyond b64 (of_int 0) (of_int 0) 1000 (1%Z, of_int 0, of_int 180).
Proof.
  exists 0x1.3167eecbc8011p+24%float.
  split; [exact haversine_origin_antipode | reflexivity].
Qed.

End Binary64.

(** ** Routing of the statistics path *)

Lemma statistics_path_dispatch :
  dispatch GET ["restaurants"; "statistics"]%string =
  Some (ep_get_restaurant_by_id, [("restaurant_id", "statistics")]%string).
Proof. reflexivity. Qed.

(** No request reaches the statistics handler: whatever the method and the
    path, the router never selects the route registered last. *)
Lemma statistics_endpoint_unreachable (m : http_method) (path : list string)
  (params : list (string * string)) :
  dispatch m path <> Some (ep_get_restaurants_statistics, params).
Proof.
  unfold dispatch, routes.
  destruct path as [| s1 [| s2 [| s3 rest]]];
    destruct m; cbn -[String.eqb];
    try destruct (String.eqb "restaurants" s1);
    try discriminate;
    destruct (String.eqb s2 "") eqn:Hempty;
    try discriminate;
    try (apply String.eqb_eq in Hempty; subst s2; discriminate);
    destruct (String.eqb "statistics" s2); discriminate.
Qed.

(** C1: the request [GET /restaurants/statistics] is served by the first
    matching route, [/restaurants/{restaurant_id}], with the identifier
    ["statistics"], and never by the statistics handler.  With two stored
    records within the radius of a valid query, the statistics handler
    would return count, avg and std, while the request is answered with
    404 "Restaurant not found". *)
Theorem statistics_route_shadowed :
  (forall (FA : FloatArith) (db : database) (q : query),
      serve_get db ["restaurants"; "statistics"]%string q =
      get_restaurant_by_id db "statistics")
  /\ (forall FA : FloatArith,
         @serve_get FA db_two_near_one_far
           ["restaurants"; "statistics"]%string query_origin_1km =
         Raise (HTTPException 404 "Restaurant not found")
         /\ status_of
              (@serve_get FA db_two_near_one_far
                 ["restaurants"; "statistics"]%string query_origin_1km) =
            404%Z)
  /\ (forall libm : Libm,
         glibc_values libm ->
         @get_restaurants_statistics (ieee libm) db_two_near_one_far
           (q_latitude query_origin_1km) (q_longitude query_origin_1km)
           (@q_radius (ieee libm) query_origin_1km) =
         Return (Json [("count", Int 2);
                       ("avg", @Float (ieee libm) 0x1.0000000000000p+2%float);
                       ("std", @Float (ieee libm) 0x1.6a09e667f3bcdp+0%float)
                      ]%string)).
Proof.
  split; [| split].
  - intros FA db q. unfold serve_get. rewrite statistics_path_dispatch.
    reflexivity.
  - intros FA. unfold serve_get. rewrite statistics_path_dispatch.
    split; reflexivity.
  - intros libm glibc. exact (statistics_two_near_one_far libm glibc).
Qed.

Lemma statistics_route_shadowed_witness :
  @get_restaurants_statistics (ieee table_libm) db_two_near_one_far
    (Some (of_int 0)) (Some (of_int 0)) (Some 1000%Z) =
  Return (Json [("count", Int 2);
                ("avg", @Float (ieee table_libm) 0x1.0000000000000p+2%float);
                ("std", @Float (ieee table_libm) 0x1.6a09e667f3bcdp+0%float)
               ]%string).
Proof.
  apply (proj2 (proj2 statistics_route_shadowed) table_libm).
  exact table_libm_values.
Defined.

(** ** The distance between antipodal points *)

(** C5: between latitude 8, longitude -136 and its antipode, latitude -8,
    longitude 44, the rounded sum [a] exceeds 1, so [math.sqrt(1 - a)]
    raises [ValueError] and [haversine_distance] returns no distance;
    between the origin and its antipode it returns 20015086.79602057. *)
Theorem haversine_raises_at_antipode (libm : Libm) :
  glibc_values libm ->
  @haversine_distance (ieee libm)
    (of_int 8) (of_int (-136)) (of_int (-8)) (of_int 44) = Raise ValueError
  /\ (forall d,
         @haversine_distance (ieee libm)
           (of_int 8) (of_int (-136)) (of_int (-8)) (of_int 44) <> Return d)
  /\ @haversine_distance (ieee libm)
       (of_int 0) (of_int 0) (of_int 0) (of_int 180) =
     Return 0x1.3167eecbc8011p+24%float.
Proof.
  intros glibc. pose proof (haversine_8_136_raises libm glibc) as H.
  split; [exact H |].
  split; [| exact (haversine_origin_antipode libm glibc)].
  intros d Hd. rewrite H in Hd. discriminate Hd.
Qed.

Lemma haversine_raises_at_antipode_witness :
  @haversine_distance (ieee table_libm)
    (of_int 8) (of_int (-136)) (of_int (-8)) (of_int 44) = Raise ValueError.
Proof.
  apply (haversine_raises_at_antipode table_libm). exact table_libm_values.
Defined.

(** C10: latitude 8, longitude -136 and latitude -8, longitude 44 lie in the
    ranges of latitude and longitude, and [haversine_distance] raises
    [ValueError] between them: it returns no value, within bounds or not.
    The same holds of latitude -82, longitude -180 and latitude 82,
    longitude 0. *)
Theorem haversine_in_range_raises (libm : Libm) :
  glibc_values libm ->
  (@in_range (ieee libm) (-90) 90 (of_int 8) = true
   /\ @in_range (ieee libm) (-180) 180 (of_int (-136)) = true
   /\ @in_range (ieee libm) (-90) 90 (of_int (-8)) = true
   /\ @in_range (ieee libm) (-180) 180 (of_int 44) = true
   /\ @haversine_distance (ieee libm) (of_int 8) (of_int (-136))
        (of_int (-8)) (of_int 44) = Raise ValueError)
  /\ (@in_range (ieee libm) (-90) 90 (of_int (-82)) = true
      /\ @in_range (ieee libm) (-180) 180 (of_int (-180)) = true
      /\ @in_range (ieee libm) (-90) 90 (of_int 82) = true
      /\ @in_range (ieee libm) (-180) 180 (of_int 0) = true
      /\ @haversine_distance (ieee libm) (of_int (-82)) (of_int (-180))
           (of_int 82) (of_int 0) = Raise ValueError).
Proof.
  intros glibc.
  split; (split; [reflexivity |]); (split; [reflexivity |]);
    (split; [reflexivity |]); (split; [reflexivity |]).
  - exact (haversine_8_136_raises libm glibc).
  - exact (haversine_82_180_raises libm glibc).
Qed.

Lemma haversine_in_range_raises_witness :
  @haversine_distance (ieee table_libm) (of_int (-82)) (of_int (-180))
    (of_int 82) (of_int 0) = Raise ValueError.
Proof.
  apply (haversine_in_range_raises table_libm table_libm_values).
Defined.

(** ** The empty filtered set *)

(** C6: when the comprehension ends with the empty list, the handler
    raises [HTTPException] with status 404 and returns no statistics.  With
    the only stored record at the antipode of the query point, 20015
    kilometers away, and a radius of 1000 meters, the comprehension does
    not end: [haversine_distance] raises [ValueError], and the request
    fails with status 500 instead of 404. *)
Theorem empty_filter_not_found :
  (forall (FA : FloatArith) (db : database) (latitude longitude : float)
          (radius : Z),
      valid_request latitude longitude radius ->
      inside_circle latitude longitude radius (select_rating_lat_lng db) =
      Return [] ->
      let response :=
        get_restaurants_statistics db
          (Some latitude) (Some longitude) (Some radius) in
      response = Raise (HTTPException 404 "Restaurants not found")
      /\ status_of response = 404%Z
      /\ (forall b, response <> Return b))
  /\ (forall libm : Libm,
         glibc_values libm ->
         @valid_request (ieee libm) (of_int 8) (of_int (-136)) 1000
         /\ @get_restaurants_statistics (ieee libm) db_near_antipode
              (Some (of_int 8)) (Some (of_int (-136))) (Some 1000%Z) =
            Raise ValueError
         /\ status_of
              (@get_restaurants_statistics (ieee libm) db_near_antipode
                 (Some (of_int 8)) (Some (of_int (-136))) (Some 1000%Z)) =
            500%Z).
Proof.
  split.
  - intros FA db latitude longitude radius Hvalid Hempty.
    apply (empty_list_not_found db latitude longitude radius Hvalid Hempty).
  - intros libm glibc. split; [repeat split |].
    rewrite (statistics_near_antipode libm glibc). split; reflexivity.
Qed.

Lemma empty_filter_not_found_witness :
  @get_restaurants_statistics (ieee table_libm) db_one_far
    (Some (of_int 0)) (Some (of_int 0)) (Some 1000%Z) =
  Raise (HTTPException 404 "Restaurants not found").
Proof.
  apply (proj1 empty_filter_not_found (ieee table_libm) db_one_far
           (of_int 0) (of_int 0) 1000%Z).
  - exact (valid_origin_1km table_libm).
  - exact (inside_one_far table_libm table_libm_values).
Defined.

(** ** The filtered set, one record, and the order of the rows: examples *)

Lemma filtered_set_exact_witness :
  @get_restaurants_statistics (ieee table_libm) (db_on_the_circle table_libm)
    (Some (of_int 0)) (Some (of_int 0)) (Some 1000%Z) =
  aggregate (select_rating_lat_lng (db_on_the_circle table_libm))
  /\ In ((3%Z, 0x1.26b0906e16d29p-7%float, of_int 0) : @row (ieee table_libm))
        (select_rating_lat_lng (db_on_the_circle table_libm)).
Proof.
  pose proof (filtered_set_exact (db_on_the_circle table_libm)
                (of_int 0) (of_int 0) 1000 (valid_origin_1km table_libm))
    as H.
  cbv zeta in H.
  rewrite (inside_on_the_circle table_libm table_libm_values) in H.
  destruct H as (Hagg & _ & _ & Hboundary).
  split; [exact Hagg |].
  apply (Hboundary _ 0x1.f400000000000p+9%float).
  - left. reflexivity.
  - exact (haversine_on_the_circle table_libm table_libm_values).
  - reflexivity.
  - reflexivity.
Defined.

Lemma single_record_unhandled_witness :
  @get_restaurants_statistics (ieee table_libm) db_one_near_one_far
    (Some (of_int 0)) (Some (of_int 0)) (Some 1000%Z) =
  Raise StatisticsError.
Proof.
  apply (single_record_unhandled db_one_near_one_far (of_int 0) (of_int 0)
           1000 [(4%Z, of_int 0, of_int 0)]).
  - exact (valid_origin_1km table_libm).
  - exact (inside_one_near_one_far table_libm table_libm_values).
  - reflexivity.
Defined.

Lemma statistics_order_independent_witness :
  @get_restaurants_statistics (ieee table_libm) db_two_near_one_far
    (Some (of_int 0)) (Some (of_int 0)) (Some 1000%Z) =
  @get_restaurants_statistics (ieee table_libm) (rev db_two_near_one_far)
    (Some (of_int 0)) (Some (of_int 0)) (Some 1000%Z).
Proof.
  apply (statistics_order_independent
           db_two_near_one_far (rev db_two_near_one_far)).
  apply Permutation_rev.
Defined.

(** ** Three records at the query center, in the two arithmetics *)

(** C7: three records located at the query center with ratings 1, 3 and 5
    and any valid radius give count 3, avg 3.0 and std 2.0: in every
    arithmetic that satisfies the laws, and in binary64 arithmetic at
    latitude 10, longitude 20 with radius 500. *)
Theorem three_records_at_center :
  (forall (FA : FloatArith) (CL : CompareLaws FA) (ZL : ZeroLaws FA)
          (r1 r2 r3 : Restaurant) (latitude longitude : float) (radius : Z),
      valid_request latitude longitude radius ->
      rated_at r1 1 latitude longitude ->
      rated_at r2 3 latitude longitude ->
      rated_at r3 5 latitude longitude ->
      get_restaurants_statistics [r1; r2; r3]
        (Some latitude) (Some longitude) (Some radius) =
      Return (Json [("count", Int 3); ("avg", Float (of_int 3));
                    ("std", Float (of_int 2))]%string))
  /\ (forall libm : Libm,
         glibc_values libm ->
         @get_restaurants_statistics (ieee libm) db_three_at_center
           (Some (of_int 10)) (Some (of_int 20)) (Some 500%Z) =
         Return (Json [("count", Int 3);
                       ("avg", @Float (ieee libm) (of_int 3));
                       ("std", @Float (ieee libm) (of_int 2))]%string)).
Proof.
  split; [| exact statistics_three_at_center].
  intros FA CL ZL r1 r2 r3 latitude longitude radius.
  apply three_at_center_under_laws.
Qed.

Lemma valid_real_request :
  @valid_request exact_arith (IZR 10) (IZR 20) 500.
Proof.
  repeat split; apply andb_true_iff; split;
    try (apply exact_le_int; apply IZR_le; lia);
    apply exact_int_le; apply IZR_le; lia.
Qed.

Lemma three_records_at_center_witness :
  @get_restaurants_statistics exact_arith db_three_at_center
    (Some (IZR 10)) (Some (IZR 20)) (Some 500%Z) =
  Return (Json [("count", Int 3); ("avg", @Float exact_arith (IZR 3));
                ("std", @Float exact_arith (IZR 2))]%string).
Proof.
  apply (proj1 three_records_at_center exact_arith
           exact_compare_laws exact_zero_laws
           (@restaurant_at exact_arith "a" 1 (IZR 10) (IZR 20))
           (@restaurant_at exact_arith "b" 3 (IZR 10) (IZR 20))
           (@restaurant_at exact_arith "c" 5 (IZR 10) (IZR 20))
           (IZR 10) (IZR 20) 500%Z).
  - exact valid_real_request.
  - repeat split.
  - repeat split.
  - repeat split.
Defined.

(** ** Symmetry, in the two arithmetics *)

(** In real arithmetic the two products agree, and the distance is
    symmetric. *)
Lemma haversine_symmetric_when_products_agree_witness :
  @haversine_distance exact_arith (IZR 10) (IZR 20) (IZR 30) (IZR 40) =
  @haversine_distance exact_arith (IZR 30) (IZR 40) (IZR 10) (IZR 20).
Proof.
  apply (@haversine_symmetric_when_products_agree exact_arith
           exact_sign_laws (IZR 10) (IZR 20) (IZR 30) (IZR 40)).
  right. exact_unfold. ring.
Defined.

(** In binary64 arithmetic, over every C library that takes the values of
    glibc (there is one), the two orders of the cosines round differently
    between latitude -89, longitude -180 and latitude -76, longitude -114:
    the distance is 1514843.4879332765 one way and 1514843.4879332762 the
    other way. *)
Lemma haversine_distance_not_symmetric :
  glibc_values table_libm
  /\ (forall libm : Libm,
         glibc_values libm ->
         @haversine_distance (ieee libm) (of_int (-89)) (of_int (-180))
           (of_int (-76)) (of_int (-114)) =
         Return 0x1.71d5b7ce931f9p+20%float
         /\ @haversine_distance (ieee libm) (of_int (-76)) (of_int (-114))
              (of_int (-89)) (of_int (-180)) =
            Return 0x1.71d5b7ce931f8p+20%float
         /\ @haversine_distance (ieee libm) (of_int (-89)) (of_int (-180))
              (of_int (-76)) (of_int (-114)) <>
            @haversine_distance (ieee libm) (of_int (-76)) (of_int (-114))
              (of_int (-89)) (of_int (-180))).
Proof.
  split; [exact table_libm_values |].
  intros libm glibc.
  pose proof (haversine_89_76 libm glibc) as H1.
  pose proof (haversine_76_89 libm glibc) as H2.
  split; [exact H1 |]. split; [exact H2 |].
  rewrite H1, H2. intros H.
  apply (f_equal (fun r : result PrimFloat.float =>
                    match r with
                    | Return x =>
                      PrimFloat.Leibniz.eqb x 0x1.71d5b7ce931f9p+20%float
                    | Raise _ => false
                    end)) in H.
  vm_compute in H. discriminate H.
Qed.

(** ** The CRUD handlers *)

Section CrudFacts.

Context {FA : FloatArith}.

Lemma has_id_true (restaurant_id : string) (r : Restaurant) :
  has_id restaurant_id r = true <-> id r = restaurant_id.
Proof. unfold has_id. apply String.eqb_eq. Qed.

Lemma has_id_false (restaurant_id : string) (r : Restaurant) :
  has_id restaurant_id r = false <-> id r <> restaurant_id.
Proof. unfold has_id. apply String.eqb_neq. Qed.

Lemma existsb_has_id (restaurant_id : string) (db : database) :
  existsb (has_id restaurant_id) db = true <-> In restaurant_id (map id db).
Proof.
  rewrite existsb_exists, in_map_iff.
  split; intros (r & H1 & H2).
  - exists r. split; [apply has_id_true; exact H2 | exact H1].
  - exists r. split; [exact H2 | apply has_id_true; exact H1].
Qed.

Lemma existsb_has_id_false (restaurant_id : string) (db : database) :
  existsb (has_id restaurant_id) db = false <->
  ~ In restaurant_id (map id db).
Proof.
  rewrite <- existsb_has_id. symmetry. apply not_true_iff_false.
Qed.

Lemma rowcount_zero (restaurant_id : string) (db : database) :
  rowcount restaurant_id db = 0%nat <-> ~ In restaurant_id (map id db).
Proof.
  unfold rowcount. induction db as [| r db IH]; simpl.
  - split; intros; [tauto | reflexivity].
  - destruct (has_id restaurant_id r) eqn:Hr.
    + apply has_id_true in Hr. simpl. split; [discriminate | tauto].
    + apply has_id_false in Hr. rewrite IH. tauto.
Qed.

Lemma select_by_id_none (restaurant_id : string) (db : database) :
  select_by_id db restaurant_id = None <-> ~ In restaurant_id (map id db).
Proof.
  unfold select_by_id. induction db as [| r db IH]; simpl.
  - tauto.
  - fold (has_id restaurant_id r).
    destruct (has_id restaurant_id r) eqn:Hr.
    + apply has_id_true in Hr. split; [discriminate | tauto].
    + apply has_id_false in Hr. rewrite IH. tauto.
Qed.

Lemma select_by_id_app (restaurant_id : string) (db db' : database) :
  select_by_id (db ++ db') restaurant_id =
  match select_by_id db restaurant_id with
  | Some r => Some r
  | None => select_by_id db' restaurant_id
  end.
Proof.
  unfold select_by_id. induction db as [| r db IH]; simpl; [reflexivity |].
  destruct (String.eqb (id r) restaurant_id); [reflexivity | exact IH].
Qed.

Lemma select_by_id_some (restaurant_id : string) (db : database)
  (r : Restaurant) :
  select_by_id db restaurant_id = Some r -> In r db /\ id r = restaurant_id.
Proof.
  unfold select_by_id. intros H. apply find_some in H.
  destruct H as [Hin Heq]. split; [exact Hin | apply String.eqb_eq, Heq].
Qed.


(** X13: creating a record whose identifier is already stored answers
    500 "Database error occurred" and leaves the table as it was, so the
    stored record is not overwritten. *)
Theorem create_duplicate_rejected (db : database) (restaurant : Restaurant) :
  fits_int64 (rating restaurant) = true ->
  In (id restaurant) (map id db) ->
  create_restaurant db restaurant =
  (Raises (HTTPException 500 "Database error occurred"), db).
Proof.
  intros Hfits Hdup. unfold create_restaurant. rewrite Hfits. simpl.
  apply existsb_has_id in Hdup. rewrite Hdup. reflexivity.
Qed.

Lemma update_absent_unchanged (restaurant_id : string)
  (restaurant : Restaurant) (db : database) :
  ~ In restaurant_id (map id db) ->
  map (fun r => if has_id restaurant_id r
                then updated_row restaurant r else r) db = db.
Proof.
  induction db as [| r db IH]; simpl; [reflexivity |].
  intros Hnot.
  destruct (has_id restaurant_id r) eqn:Hr.
  - apply has_id_true in Hr. tauto.
  - rewrite IH by tauto. reflexivity.
Qed.

Lemma delete_absent_unchanged (restaurant_id : string) (db : database) :
  ~ In restaurant_id (map id db) ->
  filter (fun r => negb (has_id restaurant_id r)) db = db.
Proof.
  induction db as [| r db IH]; simpl; [reflexivity |].
  intros Hnot.
  destruct (has_id restaurant_id r) eqn:Hr.
  - apply has_id_true in Hr. tauto.
  - simpl. rewrite IH by tauto. reflexivity.
Qed.

(** X14: a write request that does not return leaves the table as it was:
    this holds of [create_restaurant], of [update_restaurant] and of
    [delete_restaurant], although the last two commit before they raise. *)
Theorem failed_write_keeps_table (db : database) (restaurant_id : string)
  (restaurant : Restaurant) :
  (returned (fst (create_restaurant db restaurant)) = false ->
   snd (create_restaurant db restaurant) = db)
  /\ (returned (fst (update_restaurant db restaurant_id restaurant)) = false ->
      snd (update_restaurant db restaurant_id restaurant) = db)
  /\ (returned (fst (delete_restaurant db restaurant_id)) = false ->
      snd (delete_restaurant db restaurant_id) = db).
Proof.
  split; [| split].
  - unfold create_restaurant.
    destruct (negb (fits_int64 (rating restaurant))); [reflexivity |].
    destruct (existsb (has_id (id restaurant)) db); [reflexivity |].
    simpl. discriminate.
  - unfold update_restaurant.
    destruct (negb (fits_int64 (rating restaurant))); [reflexivity |].
    cbv zeta.
    destruct (rowcount restaurant_id db =? 0)%nat eqn:Hrc;
      [| simpl; discriminate].
    intros _. simpl. apply update_absent_unchanged.
    apply rowcount_zero, Nat.eqb_eq, Hrc.
  - unfold delete_restaurant. cbv zeta.
    destruct (rowcount restaurant_id db =? 0)%nat eqn:Hrc;
      [| simpl; discriminate].
    intros _. simpl. apply delete_absent_unchanged.
    apply rowcount_zero, Nat.eqb_eq, Hrc.
Qed.

Lemma update_ids (restaurant_id : string) (restaurant : Restaurant)
  (db : database) :
  map id (map (fun r => if has_id restaurant_id r
                        then updated_row restaurant r else r) db) =
  map id db.
Proof.
  rewrite map_map. apply map_ext. intros r.
  destruct (has_id restaurant_id r); reflexivity.
Qed.




Lemma select_by_id_update_other (restaurant_id other : string)
  (restaurant : Restaurant) (db : database) :
  other <> restaurant_id ->
  select_by_id
    (map (fun r => if has_id restaurant_id r
                   then updated_row restaurant r else r) db) other =
  select_by_id db other.
Proof.
  intros Hneq. unfold select_by_id.
  induction db as [| r db IH]; simpl; [reflexivity |].
  destruct (has_id restaurant_id r) eqn:Hr.
  - apply has_id_true in Hr. simpl. rewrite Hr.
    replace (String.eqb restaurant_id other) with false
      by (symmetry; apply String.eqb_neq; congruence).
    exact IH.
  - destruct (String.eqb (id r) other); [reflexivity | exact IH].
Qed.

Lemma select_by_id_delete_other (restaurant_id other : string)
  (db : database) :
  other <> restaurant_id ->
  select_by_id (filter (fun r => negb (has_id restaurant_id r)) db) other =
  select_by_id db other.
Proof.
  intros Hneq. unfold select_by_id.
  induction db as [| r db IH]; simpl; [reflexivity |].
  destruct (has_id restaurant_id r) eqn:Hr; simpl.
  - apply has_id_true in Hr. rewrite Hr.
    replace (String.eqb restaurant_id other) with false
      by (symmetry; apply String.eqb_neq; congruence).
    exact IH.
  - destruct (String.eqb (id r) other); [reflexivity | exact IH].
Qed.

Lemma select_by_id_create_other (other : string) (restaurant : Restaurant)
  (db : database) :
  other <> id restaurant ->
  select_by_id (snd (create_restaurant db restaurant)) other =
  select_by_id db other.
Proof.
  intros Hneq. unfold create_restaurant.
  destruct (negb (fits_int64 (rating restaurant))); [reflexivity |].
  destruct (existsb (has_id (id restaurant)) db); [reflexivity |].
  simpl. rewrite select_by_id_app.
  destruct (select_by_id db other); [reflexivity |].
  unfold select_by_id. simpl.
  replace (String.eqb (id restaurant) other) with false
    by (symmetry; apply String.eqb_neq; congruence).
  reflexivity.
Qed.

(** X16: a write request on one identifier does not change what a lookup
    of any other identifier returns, whether the request creates, updates
    or deletes, and whether it returns or raises. *)
Theorem write_preserves_other_records (db : database)
  (restaurant_id other : string) (restaurant : Restaurant) :
  (other <> id restaurant ->
   get_restaurant_by_id (snd (create_restaurant db restaurant)) other =
   get_restaurant_by_id db other)
  /\ (other <> restaurant_id ->
      get_restaurant_by_id
        (snd (update_restaurant db restaurant_id restaurant)) other =
      get_restaurant_by_id db other)
  /\ (other <> restaurant_id ->
      get_restaurant_by_id (snd (delete_restaurant db restaurant_id)) other =
      get_restaurant_by_id db other).
Proof.
  unfold get_restaurant_by_id. split; [| split]; intros Hneq.
  - rewrite select_by_id_create_other by exact Hneq. reflexivity.
  - unfold update_restaurant.
    destruct (negb (fits_int64 (rating restaurant))); [reflexivity |].
    cbv zeta.
    destruct (rowcount restaurant_id db =? 0)%nat; simpl snd;
      rewrite select_by_id_update_other by exact Hneq; reflexivity.
  - unfold delete_restaurant. cbv zeta.
    destruct (rowcount restaurant_id db =? 0)%nat; simpl snd;
      rewrite select_by_id_delete_other by exact Hneq; reflexivity.
Qed.

Lemma deleted_absent (restaurant_id : string) (db : database) :
  ~ In restaurant_id
       (map id (filter (fun r => negb (has_id restaurant_id r)) db)).
Proof.
  rewrite in_map_iff. intros (r & Hid & Hin).
  apply filter_In in Hin. destruct Hin as [_ Hneg].
  apply negb_true_iff, has_id_false in Hneg. contradiction.
Qed.

(** X17: deleting a stored identifier returns the message "Restaurant
    deleted successfully"; afterwards the identifier is no longer in the
    table, a lookup of it answers 404 and so does a second deletion. *)
Theorem delete_then_gone (db : database) (restaurant_id : string) :
  In restaurant_id (map id db) ->
  let db' := snd (delete_restaurant db restaurant_id) in
  fst (delete_restaurant db restaurant_id) =
  Returns [("message", "Restaurant deleted successfully")]%string
  /\ ~ In restaurant_id (map id db')
  /\ get_restaurant_by_id db' restaurant_id =
     Raise (HTTPException 404 "Restaurant not found")
  /\ delete_restaurant db' restaurant_id =
     (Raises (HTTPException 404 "Restaurant not found"), db').
Proof.
  intros Hin db'. subst db'.
  assert (Hd : delete_restaurant db restaurant_id =
               (Returns [("message", "Restaurant deleted successfully")]%string,
                filter (fun r => negb (has_id restaurant_id r)) db)).
  { unfold delete_restaurant. cbv zeta.
    replace (rowcount restaurant_id db =? 0)%nat with false; [reflexivity |].
    symmetry. apply Nat.eqb_neq. rewrite rowcount_zero. tauto. }
  rewrite Hd. simpl fst. simpl snd.
  pose proof (deleted_absent restaurant_id db) as Hgone.
  split; [reflexivity | split; [exact Hgone | split]].
  - unfold get_restaurant_by_id.
    apply select_by_id_none in Hgone. rewrite Hgone. reflexivity.
  - unfold delete_restaurant. cbv zeta.
    replace (rowcount restaurant_id
               (filter (fun r => negb (has_id restaurant_id r)) db) =? 0)%nat
      with true
      by (symmetry; apply Nat.eqb_eq, rowcount_zero; exact Hgone).
    rewrite delete_absent_unchanged by exact Hgone. reflexivity.
Qed.

(** X18: a lookup, an update and a deletion answer 404 "Restaurant not
    found" exactly when no stored record has the identifier asked for (for
    the update, with a rating that fits a 64-bit integer). *)
Theorem not_found_iff_absent (db : database) (restaurant_id : string)
  (restaurant : Restaurant) :
  (get_restaurant_by_id db restaurant_id =
   Raise (HTTPException 404 "Restaurant not found")
   <-> ~ In restaurant_id (map id db))
  /\ (fits_int64 (rating restaurant) = true ->
      (fst (update_restaurant db restaurant_id restaurant) =
       Raises (HTTPException 404 "Restaurant not found")
       <-> ~ In restaurant_id (map id db)))
  /\ (fst (delete_restaurant db restaurant_id) =
      Raises (HTTPException 404 "Restaurant not found")
      <-> ~ In restaurant_id (map id db)).
Proof.
  split; [| split].
  - unfold get_restaurant_by_id. rewrite <- select_by_id_none.
    destruct (select_by_id db restaurant_id); split; intros H;
      try reflexivity; discriminate.
  - intros Hfits. unfold update_restaurant. rewrite Hfits. simpl negb.
    cbv iota zeta. rewrite <- rowcount_zero.
    destruct (rowcount restaurant_id db =? 0)%nat eqn:Hrc; simpl fst.
    + apply Nat.eqb_eq in Hrc. tauto.
    + apply Nat.eqb_neq in Hrc. split; [discriminate | tauto].
  - unfold delete_restaurant. cbv zeta. rewrite <- rowcount_zero.
    destruct (rowcount restaurant_id db =? 0)%nat eqn:Hrc; simpl fst.
    + apply Nat.eqb_eq in Hrc. tauto.
    + apply Nat.eqb_neq in Hrc. split; [discriminate | tauto].
Qed.

(** ** The primary key *)

Lemma primary_key_append (db : database) (r : Restaurant) :
  primary_key db -> ~ In (id r) (map id db) -> primary_key (db ++ [r]).
Proof.
  unfold primary_key. intros Hkey Hfresh. rewrite map_app. simpl.
  apply NoDup_app; [exact Hkey | |].
  - constructor; [simpl; tauto | constructor].
  - intros a Ha [<- | []]. contradiction.
Qed.

Lemma primary_key_delete (restaurant_id : string) (db : database) :
  primary_key db ->
  primary_key (filter (fun r => negb (has_id restaurant_id r)) db).
Proof.
  unfold primary_key. induction db as [| r db IH]; simpl; [tauto |].
  intros Hkey. inversion Hkey as [| x xs Hnotin Hrest]; subst.
  destruct (negb (has_id restaurant_id r)); [| apply IH; exact Hrest].
  simpl. constructor; [| apply IH; exact Hrest].
  rewrite in_map_iff. intros (r' & Hid & Hin).
  apply filter_In in Hin. apply Hnotin.
  rewrite in_map_iff. exists r'. tauto.
Qed.

Lemma primary_key_create (db : database) (restaurant : Restaurant) :
  primary_key db -> primary_key (snd (create_restaurant db restaurant)).
Proof.
  intros Hkey. unfold create_restaurant.
  destruct (negb (fits_int64 (rating restaurant))); [exact Hkey |].
  destruct (existsb (has_id (id restaurant)) db) eqn:Hex; [exact Hkey |].
  simpl. apply primary_key_append; [exact Hkey |].
  apply existsb_has_id_false. exact Hex.
Qed.

Lemma primary_key_update (db : database) (restaurant_id : string)
  (restaurant : Restaurant) :
  primary_key db ->
  primary_key (snd (update_restaurant db restaurant_id restaurant)).
Proof.
  intros Hkey. unfold update_restaurant.
  destruct (negb (fits_int64 (rating restaurant))); [exact Hkey |].
  cbv zeta. unfold primary_key.
  destruct (rowcount restaurant_id db =? 0)%nat; simpl snd;
    rewrite update_ids; exact Hkey.
Qed.

Section ImportFacts.

Variable to_integer : string -> Z.
Variable to_real : string -> float.

Lemma primary_key_insert_or_ignore (db : database) (row : csv_row) :
  primary_key db -> primary_key (insert_or_ignore to_integer to_real db row).
Proof.
  intros Hkey. unfold insert_or_ignore.
  destruct (existsb (has_id (csv_id row)) db) eqn:Hex; [exact Hkey |].
  apply primary_key_append; [exact Hkey |].
  apply existsb_has_id_false. exact Hex.
Qed.

Lemma primary_key_import (reader : list csv_row) (db : database) :
  primary_key db ->
  primary_key (create_table_and_import_data to_integer to_real reader db).
Proof.
  unfold create_table_and_import_data. revert db.
  induction reader as [| row reader IH]; intros db Hkey; simpl; [exact Hkey |].
  apply IH, primary_key_insert_or_ignore, Hkey.
Qed.

End ImportFacts.

(** X19: the primary key is an invariant of the table: when no two stored
    records share an identifier, the same holds after a creation, an
    update, a deletion and the import of a CSV file, whatever their
    outcome. *)
Theorem primary_key_preserved (to_integer : string -> Z)
  (to_real : string -> float) (db : database) (restaurant_id : string)
  (restaurant : Restaurant) (reader : list csv_row) :
  primary_key db ->
  primary_key (snd (create_restaurant db restaurant))
  /\ primary_key (snd (update_restaurant db restaurant_id restaurant))
  /\ primary_key (snd (delete_restaurant db restaurant_id))
  /\ primary_key (create_table_and_import_data to_integer to_real reader db).
Proof.
  intros Hkey. split; [| split; [| split]].
  - apply primary_key_create, Hkey.
  - apply primary_key_update, Hkey.
  - unfold delete_restaurant. cbv zeta.
    destruct (rowcount restaurant_id db =? 0)%nat; simpl snd;
      apply primary_key_delete, Hkey.
  - apply primary_key_import, Hkey.
Qed.

Lemma primary_key_split (db1 db2 : database) (r : Restaurant) :
  primary_key (db1 ++ r :: db2) ->
  ~ In (id r) (map id db1) /\ ~ In (id r) (map id db2).
Proof.
  unfold primary_key. rewrite map_app. simpl. intros Hkey.
  apply NoDup_remove_2 in Hkey. rewrite in_app_iff in Hkey. tauto.
Qed.


(** X21: under the primary key a lookup returns a record exactly when that
    record is stored under the identifier asked for. *)
Theorem get_by_id_sound_complete (db : database) (restaurant_id : string)
  (r : Restaurant) :
  primary_key db ->
  (get_restaurant_by_id db restaurant_id = Return (Model r)
   <-> In r db /\ id r = restaurant_id).
Proof.
  intros Hkey. unfold get_restaurant_by_id. split.
  - destruct (select_by_id db restaurant_id) as [r' |] eqn:Hsel;
      [| discriminate].
    intros Heq. injection Heq as <-.
    apply select_by_id_some. exact Hsel.
  - intros [Hin <-].
    apply in_split in Hin. destruct Hin as (db1 & db2 & ->).
    destruct (primary_key_split db1 db2 r Hkey) as [H1 _].
    rewrite select_by_id_app.
    apply select_by_id_none in H1. rewrite H1.
    unfold select_by_id. simpl. rewrite String.eqb_refl. reflexivity.
Qed.

(** ** Routing of the CRUD paths *)

(** X22: the collection path is routed to the listing on GET and to the
    creation on POST; a path [/restaurants/<rid>] with any non-empty
    segment [rid] is routed, on GET, PUT and DELETE, to the lookup, the
    update and the deletion, with [rid] bound to [restaurant_id], so that a
    GET request is answered by [get_restaurant_by_id] on [rid]. *)
Theorem crud_routes (rid : string) :
  rid <> ""%string ->
  dispatch GET ["restaurants"%string] = Some (ep_get_all_restaurants, [])
  /\ dispatch POST ["restaurants"%string] = Some (ep_create_restaurant, [])
  /\ dispatch GET ["restaurants"%string; rid] =
     Some (ep_get_restaurant_by_id, [("restaurant_id"%string, rid)])
  /\ dispatch PUT ["restaurants"%string; rid] =
     Some (ep_update_restaurant, [("restaurant_id"%string, rid)])
  /\ dispatch DELETE ["restaurants"%string; rid] =
     Some (ep_delete_restaurant, [("restaurant_id"%string, rid)])
  /\ (forall db q,
         serve_get db ["restaurants"%string; rid] q =
         get_restaurant_by_id db rid).
Proof.
  intros Hrid. apply String.eqb_neq in Hrid.
  assert (Hget : dispatch GET ["restaurants"%string; rid] =
                 Some (ep_get_restaurant_by_id,
                       [("restaurant_id"%string, rid)])).
  { unfold dispatch, routes. cbn -[String.eqb].
    rewrite String.eqb_refl, Hrid. reflexivity. }
  repeat split; try reflexivity; try exact Hget.
  - unfold dispatch, routes. cbn -[String.eqb].
    rewrite String.eqb_refl, Hrid. reflexivity.
  - unfold dispatch, routes. cbn -[String.eqb].
    rewrite String.eqb_refl, Hrid. reflexivity.
  - unfold serve_get. rewrite Hget. reflexivity.
Qed.

End CrudFacts.

(** ** Import of the CSV file *)

Section CsvImportFacts.

Context {FA : FloatArith}.

Section ImportLemmas.

Variable to_integer : string -> Z.
Variable to_real : string -> float.

Local Abbreviation import :=
  (create_table_and_import_data to_integer to_real).
Local Abbreviation insert := (insert_or_ignore to_integer to_real).

Lemma import_cons (row : csv_row) (reader : list csv_row) (db : database) :
  import (row :: reader) db = import reader (insert db row).
Proof. reflexivity. Qed.

Lemma import_app (reader reader' : list csv_row) (db : database) :
  import (reader ++ reader') db = import reader' (import reader db).
Proof. unfold create_table_and_import_data. apply fold_left_app. Qed.

Lemma import_extends (reader : list csv_row) (db : database) :
  exists added, import reader db = db ++ added.
Proof.
  revert db. induction reader as [| row reader IH]; intros db.
  - exists []. simpl. rewrite app_nil_r. reflexivity.
  - rewrite import_cons. destruct (IH (insert db row)) as [added Hadded].
    rewrite Hadded. unfold insert_or_ignore.
    destruct (existsb (has_id (csv_id row)) db).
    + exists added. reflexivity.
    + exists (stored_row to_integer to_real row :: added).
      rewrite <- app_assoc. reflexivity.
Qed.

Lemma import_keeps_ids (reader : list csv_row) (db : database) (i : string) :
  In i (map id db) -> In i (map id (import reader db)).
Proof.
  intros Hin. destruct (import_extends reader db) as [added ->].
  rewrite map_app, in_app_iff. left. exact Hin.
Qed.

Lemma insert_has_id (row : csv_row) (db : database) :
  In (csv_id row) (map id (insert db row)).
Proof.
  unfold insert_or_ignore.
  destruct (existsb (has_id (csv_id row)) db) eqn:Hex.
  - apply existsb_has_id. exact Hex.
  - rewrite map_app, in_app_iff. right. simpl. left. reflexivity.
Qed.

Lemma import_has_ids (reader : list csv_row) (db : database) (row : csv_row) :
  In row reader -> In (csv_id row) (map id (import reader db)).
Proof.
  revert db. induction reader as [| row' reader IH]; intros db Hin;
    [contradiction |].
  rewrite import_cons. destruct Hin as [-> | Hin].
  - apply import_keeps_ids, insert_has_id.
  - apply IH. exact Hin.
Qed.

Lemma import_known_ids (reader : list csv_row) (db : database) :
  (forall row, In row reader -> In (csv_id row) (map id db)) ->
  import reader db = db.
Proof.
  induction reader as [| row reader IH]; intros Hall; [reflexivity |].
  rewrite import_cons.
  assert (Hrow : insert db row = db).
  { unfold insert_or_ignore.
    replace (existsb (has_id (csv_id row)) db) with true; [reflexivity |].
    symmetry. apply existsb_has_id, Hall. left. reflexivity. }
  rewrite Hrow. apply IH. intros row' Hin. apply Hall. right. exact Hin.
Qed.

Lemma import_ids_origin (reader : list csv_row) (db : database) (i : string) :
  In i (map id (import reader db)) ->
  In i (map id db) \/ In i (map csv_id reader).
Proof.
  revert db. induction reader as [| row reader IH]; intros db Hin;
    [left; exact Hin |].
  rewrite import_cons in Hin. apply IH in Hin.
  destruct Hin as [Hin | Hin]; [| right; right; exact Hin].
  unfold insert_or_ignore in Hin.
  destruct (existsb (has_id (csv_id row)) db); [left; exact Hin |].
  rewrite map_app, in_app_iff in Hin. simpl in Hin.
  destruct Hin as [Hin | [<- | []]]; [left; exact Hin |].
  right. left. reflexivity.
Qed.

Lemma import_idempotent_aux (reader : list csv_row) (db : database) :
  import reader (import reader db) = import reader db.
Proof.
  apply import_known_ids. intros row Hin. apply import_has_ids. exact Hin.
Qed.

Lemma import_first_row_aux (l1 l2 : list csv_row) (row : csv_row)
  (db : database) :
  ~ In (csv_id row) (map id db) ->
  ~ In (csv_id row) (map csv_id l1) ->
  select_by_id (import (l1 ++ row :: l2) db) (csv_id row) =
  Some (stored_row to_integer to_real row).
Proof.
  intros Hdb Hl1.
  rewrite import_app, import_cons.
  assert (Hfresh : ~ In (csv_id row) (map id (import l1 db))).
  { intros Hin. apply import_ids_origin in Hin. tauto. }
  assert (Hins : insert (import l1 db) row =
                 import l1 db ++ [stored_row to_integer to_real row]).
  { unfold insert_or_ignore.
    apply existsb_has_id_false in Hfresh. rewrite Hfresh. reflexivity. }
  rewrite Hins.
  destruct (import_extends l2
              (import l1 db ++ [stored_row to_integer to_real row]))
    as [added ->].
  rewrite !select_by_id_app.
  apply select_by_id_none in Hfresh. rewrite Hfresh.
  unfold select_by_id. simpl. rewrite String.eqb_refl. reflexivity.
Qed.

End ImportLemmas.

(** X24: importing the same CSV file a second time changes nothing: every
    row is then skipped, so that restarting the service does not duplicate
    or alter records. *)
Theorem import_idempotent (to_integer : string -> Z) (to_real : string -> float)
  (reader : list csv_row) (db : database) :
  create_table_and_import_data to_integer to_real reader
    (create_table_and_import_data to_integer to_real reader db) =
  create_table_and_import_data to_integer to_real reader db.
Proof. apply import_idempotent_aux. Qed.

(** X25: the import only appends to the table: the records stored before
    it are kept as they are, in the same order, and a lookup of an
    identifier that was stored before returns what it returned before,
    even when the CSV file holds a row with that identifier. *)
Theorem import_keeps_existing (to_integer : string -> Z)
  (to_real : string -> float) (reader : list csv_row) (db : database) :
  (exists added,
      create_table_and_import_data to_integer to_real reader db = db ++ added)
  /\ (forall restaurant_id,
         In restaurant_id (map id db) ->
         get_restaurant_by_id
           (create_table_and_import_data to_integer to_real reader db)
           restaurant_id =
         get_restaurant_by_id db restaurant_id).
Proof.
  destruct (import_extends to_integer to_real reader db) as [added Hadded].
  split; [exists added; exact Hadded |].
  intros restaurant_id Hin. rewrite Hadded.
  unfold get_restaurant_by_id. rewrite select_by_id_app.
  destruct (select_by_id db restaurant_id) eqn:Hsel; [reflexivity |].
  apply select_by_id_none in Hsel. contradiction.
Qed.

(** X26: every identifier of the CSV file is stored after the import, and
    when several rows of the file share an identifier that was not stored
    before, the first of them is the one imported. *)
Theorem import_first_row_wins (to_integer : string -> Z)
  (to_real : string -> float) (l1 l2 : list csv_row) (row : csv_row)
  (db : database) :
  ~ In (csv_id row) (map id db) ->
  ~ In (csv_id row) (map csv_id l1) ->
  let db' :=
    create_table_and_import_data to_integer to_real (l1 ++ row :: l2) db in
  get_restaurant_by_id db' (csv_id row) =
  Return (Model (stored_row to_integer to_real row))
  /\ (forall row', In row' (l1 ++ row :: l2) -> In (csv_id row') (map id db')).
Proof.
  intros Hdb Hl1 db'. subst db'. split.
  - unfold get_restaurant_by_id.
    rewrite import_first_row_aux by assumption. reflexivity.
  - intros row' Hin. apply import_has_ids. exact Hin.
Qed.

End CsvImportFacts.

(** ** Examples of the CRUD handlers and of the import *)

Section CrudExamples.

#[local] Existing Instance table_arith.


Lemma create_duplicate_rejected_witness :
  create_restaurant db_one_far (restaurant_at "c" 5 (of_int 10) (of_int 20)) =
  (Raises (HTTPException 500 "Database error occurred"), db_one_far).
Proof.
  apply (create_duplicate_rejected db_one_far
           (restaurant_at "c" 5 (of_int 10) (of_int 20))).
  - reflexivity.
  - simpl. left. reflexivity.
Defined.

Lemma failed_write_keeps_table_witness :
  snd (delete_restaurant db_one_far "zz") = db_one_far.
Proof.
  apply (failed_write_keeps_table db_one_far "zz"
           (restaurant_at "zz" 1 (of_int 0) (of_int 0))).
  reflexivity.
Defined.


Lemma write_preserves_other_records_witness :
  get_restaurant_by_id (snd (delete_restaurant db_one_near_one_far "c")) "a" =
  get_restaurant_by_id db_one_near_one_far "a".
Proof.
  apply (write_preserves_other_records db_one_near_one_far "c" "a"
           (restaurant_at "c" 1 (of_int 0) (of_int 180))).
  discriminate.
Defined.

Lemma delete_then_gone_witness :
  fst (delete_restaurant db_one_near_one_far "a") =
  Returns [("message", "Restaurant deleted successfully")]%string.
Proof.
  apply (delete_then_gone db_one_near_one_far "a").
  simpl. left. reflexivity.
Defined.

Lemma not_found_iff_absent_witness :
  fst (update_restaurant db_one_far "zz"
         (restaurant_at "zz" 2 (of_int 0) (of_int 0))) =
  Raises (HTTPException 404 "Restaurant not found")
  <-> ~ In "zz"%string (map id db_one_far).
Proof.
  apply (not_found_iff_absent db_one_far "zz"
           (restaurant_at "zz" 2 (of_int 0) (of_int 0))).
  reflexivity.
Defined.

Lemma primary_key_db_one_near_one_far : primary_key db_one_near_one_far.
Proof.
  unfold primary_key. simpl.
  constructor; [simpl; intros [H | []]; discriminate H |].
  constructor; [simpl; tauto | constructor].
Qed.

Lemma primary_key_preserved_witness :
  primary_key
    (snd (create_restaurant db_one_near_one_far
            (restaurant_at "b" 5 (of_int 0) (of_int 0)))).
Proof.
  apply (primary_key_preserved (fun _ => 0%Z) (fun _ => of_int 0)
           db_one_near_one_far "a"
           (restaurant_at "b" 5 (of_int 0) (of_int 0)) []).
  exact primary_key_db_one_near_one_far.
Defined.


Lemma get_by_id_sound_complete_witness :
  get_restaurant_by_id db_one_near_one_far "c" =
  Return (Model (restaurant_at "c" 1 (of_int 0) (of_int 180)))
  <-> In (restaurant_at "c" 1 (of_int 0) (of_int 180)) db_one_near_one_far /\
      id (restaurant_at "c" 1 (of_int 0) (of_int 180)) = "c"%string.
Proof.
  apply (get_by_id_sound_complete db_one_near_one_far "c"
           (restaurant_at "c" 1 (of_int 0) (of_int 180))).
  exact primary_key_db_one_near_one_far.
Defined.

Lemma crud_routes_witness :
  dispatch DELETE ["restaurants"; "42"]%string =
  Some (ep_delete_restaurant, [("restaurant_id", "42")]%string).
Proof.
  apply (crud_routes "42"). discriminate.
Defined.

Lemma import_first_row_wins_witness :
  get_restaurant_by_id
    (create_table_and_import_data (fun _ => 4%Z) (fun _ => of_int 0)
       ([csv_row_at "c" "2" "0" "0"] ++
        csv_row_at "x" "4" "0" "0" :: [csv_row_at "x" "5" "1" "1"])
       db_one_far) "x" =
  Return (Model (stored_row (fun _ => 4%Z) (fun _ => of_int 0)
                            (csv_row_at "x" "4" "0" "0"))).
Proof.
  apply (import_first_row_wins (fun _ => 4%Z) (fun _ => of_int 0)
           [csv_row_at "c" "2" "0" "0"] [csv_row_at "x" "5" "1" "1"]
           (csv_row_at "x" "4" "0" "0") db_one_far).
  - simpl. intros [H | []]. discriminate H.
  - simpl. intros [H | []]. discriminate H.
Defined.

End CrudExamples.

(** ** The distance from a point to itself, and equal ratings *)

(** X6: for a latitude and a longitude that are finite, the distance from
    the point to itself is computed, without [ValueError], and is zero: in
    every arithmetic that satisfies the laws, and in binary64 arithmetic at
    latitude 10, longitude 20. *)
Theorem zero_distance :
  (forall (FA : FloatArith) (ZL : ZeroLaws FA) (lat lon : float),
      finite lat -> finite lon ->
      exists d, haversine_distance lat lon lat lon = Return d /\
                float_le_int d 0 = true /\ int_le_float 0 d = true)
  /\ (forall libm : Libm,
         glibc_values libm ->
         @haversine_distance (ieee libm)
           (of_int 10) (of_int 20) (of_int 10) (of_int 20) =
         Return (of_int 0)).
Proof.
  split; [| exact haversine_10_20_same].
  intros FA ZL lat lon. apply zero_distance_under_laws.
Qed.

Lemma zero_distance_witness :
  exists d : R,
    @haversine_distance exact_arith (IZR 10) (IZR 20) (IZR 10) (IZR 20) =
    Return d /\
    @float_le_int exact_arith d 0 = true /\
    @int_le_float exact_arith 0 d = true.
Proof.
  apply (proj1 zero_distance exact_arith exact_zero_laws (IZR 10) (IZR 20)).
  - apply exact_finite.
  - apply exact_finite.
Defined.

(** X9: when at least two records lie within the radius of a valid request
    and all of them have the same rating [k], of magnitude at most [2^53],
    the handler returns [k] as the average and 0 as the standard deviation:
    in every arithmetic that satisfies the laws, and in binary64 arithmetic
    for two records rated 4 at the origin and a third at its antipode. *)
Theorem statistics_equal_ratings :
  (forall (FA : FloatArith) (ZL : ZeroLaws FA) (k : Z) (db : database)
          (latitude longitude : float) (radius : Z) (filtered : list row),
      valid_request latitude longitude radius ->
      inside_circle latitude longitude radius (select_rating_lat_lng db) =
      Return filtered ->
      (2 <= length filtered)%nat ->
      Forall (fun rw => row0 rw = k) filtered ->
      (Z.abs k <= 2 ^ 53)%Z ->
      get_restaurants_statistics db
        (Some latitude) (Some longitude) (Some radius) =
      Return (Json [("count", Int (Z.of_nat (length filtered)));
                    ("avg", Float (of_int k));
                    ("std", Float (of_int 0))]%string))
  /\ (forall libm : Libm,
         glibc_values libm ->
         @get_restaurants_statistics (ieee libm) db_equal_ratings
           (Some (of_int 0)) (Some (of_int 0)) (Some 1000%Z) =
         Return (Json [("count", Int 2);
                       ("avg", @Float (ieee libm) (of_int 4));
                       ("std", @Float (ieee libm) (of_int 0))]%string)).
Proof.
  split; [| exact statistics_db_equal_ratings].
  intros FA ZL k db latitude longitude radius filtered.
  apply equal_ratings_under_laws.
Qed.

Lemma statistics_equal_ratings_witness :
  @get_restaurants_statistics exact_arith
    [@restaurant_at exact_arith "a" 4 (IZR 10) (IZR 20);
     @restaurant_at exact_arith "b" 4 (IZR 10) (IZR 20)]
    (Some (IZR 10)) (Some (IZR 20)) (Some 500%Z) =
  Return (Json [("count", Int 2); ("avg", @Float exact_arith (IZR 4));
                ("std", @Float exact_arith (IZR 0))]%string).
Proof.
  apply (proj1 statistics_equal_ratings exact_arith exact_zero_laws 4%Z
           [@restaurant_at exact_arith "a" 4 (IZR 10) (IZR 20);
            @restaurant_at exact_arith "b" 4 (IZR 10) (IZR 20)]
           (IZR 10) (IZR 20) 500%Z
           [(4%Z, IZR 10, IZR 20); (4%Z, IZR 10, IZR 20)]).
  - exact valid_real_request.
  - exact (@inside_circle_at_center exact_arith exact_compare_laws
             exact_zero_laws (IZR 10) (IZR 20) 500 [4; 4]%Z
             valid_real_request).
  - simpl. lia.
  - repeat constructor.
  - simpl. lia.
Defined.

(** ** Radius and distant records: examples *)

Lemma statistics_radius_monotone_witness :
  exists count' avg' std',
    @get_restaurants_statistics (ieee table_libm) db_two_near_one_far
      (Some (of_int 0)) (Some (of_int 0)) (Some 2000%Z) =
    Return (Json [("count", Int count'); ("avg", Float avg');
                  ("std", Float std')]%string)
    /\ (2 <= count')%Z.
Proof.
  apply (@statistics_radius_monotone (ieee table_libm)
           (ieee_compare_laws table_libm)
           db_two_near_one_far (Some (of_int 0)) (Some (of_int 0))
           1000%Z 2000%Z 2%Z
           0x1.0000000000000p+2%float 0x1.6a09e667f3bcdp+0%float).
  - lia.
  - exact (statistics_two_near_one_far table_libm table_libm_values).
Defined.

Lemma statistics_ignores_distant_record_witness :
  @get_restaurants_statistics (ieee table_libm)
    ([restaurant_at "a" 3 (of_int 0) (of_int 0)] ++
     restaurant_at "c" 1 (of_int 0) (of_int 180)
     :: [restaurant_at "b" 5 (of_int 0) (of_int 0)])
    (Some (of_int 0)) (Some (of_int 0)) (Some 1000%Z) =
  @get_restaurants_statistics (ieee table_libm)
    ([restaurant_at "a" 3 (of_int 0) (of_int 0)] ++
     [restaurant_at "b" 5 (of_int 0) (of_int 0)])
    (Some (of_int 0)) (Some (of_int 0)) (Some 1000%Z).
Proof.
  apply (@statistics_ignores_distant_record (ieee table_libm)
           [restaurant_at "a" 3 (of_int 0) (of_int 0)]
           [restaurant_at "b" 5 (of_int 0) (of_int 0)]
           (restaurant_at "c" 1 (of_int 0) (of_int 180))
           (of_int 0) (of_int 0) 1000%Z).
  exact (antipode_beyond_1km table_libm table_libm_values).
Defined.

(** ** Creation and statistics *)

Lemma fold_right_add_snoc (xs : list Z) (x : Z) :
  fold_right Z.add 0%Z (xs ++ [x]) = (fold_right Z.add 0 xs + x)%Z.
Proof.
  induction xs as [| y xs IH]; simpl; [lia |]. rewrite IH. lia.
Qed.

Lemma inside_circle_snoc_near {FA : FloatArith} (latitude longitude : float)
  (radius : Z) (db : database) (r : Restaurant) (filtered : list row) :
  inside_circle latitude longitude radius (select_rating_lat_lng db) =
  Return filtered ->
  within latitude longitude radius (rating r, lat r, lng r) ->
  inside_circle latitude longitude radius (select_rating_lat_lng (db ++ [r])) =
  Return (filtered ++ [(rating r, lat r, lng r)]).
Proof.
  intros Hf (d & Hd & Hle). unfold select_rating_lat_lng.
  rewrite map_app, inside_circle_app.
  unfold select_rating_lat_lng in Hf. rewrite Hf. cbn [bind].
  simpl map. rewrite inside_circle_cons.
  unfold row1, row2 in *. cbn [fst snd] in *. rewrite Hd. cbn [bind].
  cbn [inside_circle bind]. rewrite Hle. reflexivity.
Qed.

(** X23: when the handler returns statistics for a query and a record is
    then created whose distance from the query point is computed and is at
    most the radius, the handler returns statistics again, with the count
    raised by one and, as the average, the quotient of the sum of the
    ratings within the radius, the new one included, by the new count. *)
Theorem create_within_radius_counts {FA : FloatArith} (db : database)
  (restaurant : Restaurant) (latitude longitude : float) (radius count : Z)
  (avg std : float) :
  fits_int64 (rating restaurant) = true ->
  ~ In (id restaurant) (map id db) ->
  within latitude longitude radius
    (rating restaurant, lat restaurant, lng restaurant) ->
  get_restaurants_statistics db (Some latitude) (Some longitude) (Some radius) =
  Return (Json [("count", Int count); ("avg", Float avg);
                ("std", Float std)]%string) ->
  exists filtered std',
    inside_circle latitude longitude radius (select_rating_lat_lng db) =
    Return filtered
    /\ count = Z.of_nat (length filtered)
    /\ get_restaurants_statistics (snd (create_restaurant db restaurant))
         (Some latitude) (Some longitude) (Some radius) =
       Return (Json [("count", Int (count + 1));
                     ("avg", Float (int_truediv
                                      (fold_right Z.add 0%Z (map row0 filtered)
                                       + rating restaurant)
                                      (count + 1)));
                     ("std", Float std')]%string).
Proof.
  intros Hfits Hfresh Hnear Hret.
  destruct (statistics_return_inv _ _ _ _ _ Hret)
    as (la & lo & ra & filtered & Hla & Hlo & Hra & Hvalid & Hf & Hlen & Hb).
  injection Hla as <-. injection Hlo as <-. injection Hra as <-.
  injection Hb as Hcount _ _.
  assert (Hc : snd (create_restaurant db restaurant) = db ++ [restaurant]).
  { unfold create_restaurant. rewrite Hfits. simpl negb. cbv iota.
    apply existsb_has_id_false in Hfresh. rewrite Hfresh. reflexivity. }
  exists filtered. eexists. split; [exact Hf |]. split; [exact Hcount |].
  rewrite Hc.
  pose proof (inside_circle_snoc_near latitude longitude radius db restaurant
                filtered Hf Hnear) as Hf'.
  rewrite (statistics_two_or_more _ _ _ _ _ Hvalid Hf')
    by (rewrite length_app; simpl; lia).
  rewrite map_app, length_app. simpl map. simpl length.
  rewrite fold_right_add_snoc. unfold row0 at 2. cbn [fst].
  replace (Z.of_nat (length filtered + 1)) with (count + 1)%Z by lia.
  reflexivity.
Qed.

Lemma create_within_radius_counts_witness :
  exists (filtered : list (@row (ieee table_libm)))
         (std' : @float (ieee table_libm)),
    @inside_circle (ieee table_libm) (of_int 0) (of_int 0) 1000
      (select_rating_lat_lng db_two_near_one_far) = Return filtered
    /\ 2%Z = Z.of_nat (length filtered)
    /\ @get_restaurants_statistics (ieee table_libm)
         (snd (create_restaurant db_two_near_one_far
                 (restaurant_at "d" 4 (of_int 0) (of_int 0))))
         (Some (of_int 0)) (Some (of_int 0)) (Some 1000%Z) =
       Return (Json [("count", Int (2 + 1));
                     ("avg", Float (@int_truediv (ieee table_libm)
                                      (fold_right Z.add 0%Z (map row0 filtered)
                                       + 4)
                                      (2 + 1)));
                     ("std", Float std')]%string).
Proof.
  apply (@create_within_radius_counts (ieee table_libm) db_two_near_one_far
           (restaurant_at "d" 4 (of_int 0) (of_int 0))
           (of_int 0) (of_int 0) 1000%Z 2%Z
           0x1.0000000000000p+2%float 0x1.6a09e667f3bcdp+0%float).
  - reflexivity.
  - simpl. intros [H | [H | [H | []]]]; discriminate H.
  - exists (of_int 0). split; [vm_compute; reflexivity | reflexivity].
  - exact (statistics_two_near_one_far table_libm table_libm_values).
Defined.
